(** * openai_agent_sdk_samples: the scripts' own logic, embedded and checked

    The repository is a set of demo scripts over an agent SDK.  The SDK and
    the model behind it are outside the repository: every call of
    [Runner.run] is an oracle here, a function the theorems quantify over.
    What the scripts themselves compute is embedded as it is written:

    - [06_CustomerService/main.py]: the FAQ tool, the seat tool, the handoff
      hook and the interactive loop;
    - [0302_Handoff.py]: the two handoff input filters and [run_scenario];
    - [0206_Guardrail.py], [0401_Guardrail.py]: the four guardrail functions
      and the test loop of 0206;
    - [0201_Context.py]: [check_purchase_history].

    Python [str] values are modelled by their UTF-8 encoding ([string] holds
    bytes).  UTF-8 is self-synchronising, so for well-formed text the
    substring test on bytes agrees with Python's [in] on code points.
    Python [float] is IEEE binary64, which is Rocq's primitive [float]. *)

From Stdlib Require Import Bool List String Ascii ZArith Lia Floats DecimalString.
From Stdlib Require DecimalPos DecimalZ.
Import ListNotations.

Local Open Scope list_scope.
Local Open Scope string_scope.

Set Implicit Arguments.

(* ================================================================= *)
(** ** Python values shared by the scripts *)

Module Py.

(** [needle in haystack] on [str]: some suffix of the haystack starts with
    the needle. *)
Fixpoint str_in (needle haystack : string) : bool :=
  String.prefix needle haystack ||
  match haystack with
  | EmptyString => false
  | String _ rest => str_in needle rest
  end.

(** [sep.join(parts)]. *)
Fixpoint join (sep : string) (parts : list string) : string :=
  match parts with
  | [] => ""
  | [p] => p
  | p :: rest => p ++ sep ++ join sep rest
  end.

(** [str(n)] for an [int]. *)
Definition str_of_int (n : Z) : string :=
  NilZero.string_of_int (Z.to_int n).

(** [seq[start:]] for a tuple or list: a negative start counts from the end
    and is clamped at the beginning, a start past the end gives the empty
    sequence. *)
Definition slice_from {A : Type} (start : Z) (l : list A) : list A :=
  let len := Z.of_nat (List.length l) in
  let lo := if (start <? 0)%Z then Z.max (start + len) 0 else Z.min start len in
  skipn (Z.to_nat lo) l.

(** [seq[:stop]] with the same conventions. *)
Definition slice_to {A : Type} (stop : Z) (l : list A) : list A :=
  let len := Z.of_nat (List.length l) in
  let hi := if (stop <? 0)%Z then Z.max (stop + len) 0 else Z.min stop len in
  firstn (Z.to_nat hi) l.

(** The exception classes the scripts name in an [except] clause or can see
    from the SDK, and the ones [except Exception] does not catch. *)
Inductive exc_class : Type :=
| AssertionError
| InputGuardrailTripwireTriggered
| OutputGuardrailTripwireTriggered
| MaxTurnsExceeded
| OtherException (name : string)
| KeyboardInterrupt
| CancelledError
| SystemExit.

(** [isinstance(e, Exception)]. *)
Definition is_Exception (c : exc_class) : bool :=
  match c with
  | KeyboardInterrupt | CancelledError | SystemExit => false
  | _ => true
  end.

(** [type(e).__name__]. *)
Definition class_name (c : exc_class) : string :=
  match c with
  | AssertionError => "AssertionError"
  | InputGuardrailTripwireTriggered => "InputGuardrailTripwireTriggered"
  | OutputGuardrailTripwireTriggered => "OutputGuardrailTripwireTriggered"
  | MaxTurnsExceeded => "MaxTurnsExceeded"
  | OtherException name => name
  | KeyboardInterrupt => "KeyboardInterrupt"
  | CancelledError => "CancelledError"
  | SystemExit => "SystemExit"
  end.

(** What a handler can read off a guardrail result's [output_info] with
    [hasattr]: its [reason] and its [issues], when it has them. *)
Record info_view : Type := InfoView {
  info_reason : option string;
  info_issues : option (list string)
}.

(** A raised exception: its class, [str(e)], and [e.guardrail_results]
    when the attribute exists (each entry the view of its [output_info],
    [None] when the entry has none). *)
Record exn : Type := Exn {
  exc_type : exc_class;
  exc_str : string;
  guardrail_results : option (list (option info_view))
}.

Definition caught_by_Exception (e : exn) : bool := is_Exception (exc_type e).

(** A computation that returns or raises. *)
Definition result (A : Type) : Type := (exn + A)%type.

Definition returned {A : Type} (r : result A) : bool :=
  match r with inr _ => true | inl _ => false end.

(** [d.get(key, default)] on a dict written as a literal with distinct keys,
    its entries in the order written. *)
Definition dict_get (d : list (string * string)) (key default : string)
    : string :=
  match find (fun entry => String.eqb (fst entry) key) d with
  | Some entry => snd entry
  | None => default
  end.

(** [not value] for what [os.getenv] returns: [None] and the empty string
    are false. *)
Definition unset (value : option string) : bool :=
  match value with
  | None => true
  | Some text => String.eqb text ""
  end.

(** The exception [sys.exit(code)] raises; its [str] is the code. *)
Definition sys_exit (code : Z) : exn :=
  Exn SystemExit (str_of_int code) None.

End Py.

(* ================================================================= *)
(** ** 06_CustomerService/main.py *)

Module CustomerService.
Import Py.

(** [class AirlineAgentContext(BaseModel)]: four optional strings. *)
Record AirlineAgentContext : Type := mkContext {
  passenger_name : option string;
  confirmation_number : option string;
  seat_number : option string;
  flight_number : option string
}.

(** [AirlineAgentContext()]: every field defaults to [None]. *)
Definition empty_context : AirlineAgentContext :=
  mkContext None None None None.

Definition BAGGAGE_ANSWER : string :=
  "飛行機にはバッグを1つ持ち込むことができます。" ++
  "重量は50ポンド以下、サイズは22インチ x 14インチ x 9インチである必要があります。".

Definition SEATS_ANSWER : string :=
  "飛行機には120席あります。" ++
  "ビジネスクラスの座席は22席、エコノミークラスの座席は98席あります。" ++
  "非常口は4列目と16列目です。" ++
  "5列目から8列目はエコノミープラスで、足元に余裕があります。".

Definition WIFI_ANSWER : string :=
  "飛行機には無料Wi-Fiがあります。Airline-Wifiにご参加ください".

Definition FALLBACK_ANSWER : string :=
  "申し訳ありませんが、その質問の答えは分かりません。".

(** [faq_lookup_tool(question)]. *)
Definition faq_lookup_tool (question : string) : string :=
  if str_in "バック" question || str_in "荷物" question then BAGGAGE_ANSWER
  else if str_in "席" question || str_in "飛行機" question then SEATS_ANSWER
  else if str_in "WiFi" question || str_in "Wi-Fi" question then WIFI_ANSWER
  else FALLBACK_ANSWER.

(** [update_seat(context, confirmation_number, new_seat)]: the two fields
    are written first, then the assertion on [flight_number] runs (the
    interpreter's default mode, where [assert] is executed).  The context
    is a shared object, so the writes stay when the assertion fails: the
    function returns the context it leaves behind together with its
    result. *)
Definition update_seat (context : AirlineAgentContext)
    (confirmation : string) (new_seat : string)
    : AirlineAgentContext * result string :=
  let context1 :=
    mkContext (passenger_name context) (Some confirmation)
              (seat_number context) (flight_number context) in
  let context2 :=
    mkContext (passenger_name context1) (confirmation_number context1)
              (Some new_seat) (flight_number context1) in
  match flight_number context2 with
  | None =>
      (context2, inl (Exn AssertionError "フライト番号は必須です。" None))
  | Some _ =>
      (context2,
       inr ("確認番号 " ++ confirmation ++ " の座席を " ++ new_seat
            ++ " に更新しました。"))
  end.

(** [on_seat_booking_handoff(context)]; [drawn] is the value
    [random.randint(100, 999)] returns. *)
Definition on_seat_booking_handoff (drawn : Z)
    (context : AirlineAgentContext) : AirlineAgentContext :=
  let flight := "FLT-" ++ str_of_int drawn in
  mkContext (passenger_name context) (confirmation_number context)
            (seat_number context) (Some flight).

(** The three agents of the script. *)
Inductive Agent : Type := triage_agent | faq_agent | seat_booking_agent.

Definition agent_name (a : Agent) : string :=
  match a with
  | triage_agent => "Triage Agent"
  | faq_agent => "FAQ Agent"
  | seat_booking_agent => "Seat Booking Agent"
  end.

(** [agent.handoffs] once the module is loaded: the triage agent hands off
    to the two specialists (the seat agent through the hook), and each
    specialist has the triage agent appended. *)
Definition handoffs (a : Agent) : list Agent :=
  match a with
  | triage_agent => [faq_agent; seat_booking_agent]
  | faq_agent => [triage_agent]
  | seat_booking_agent => [triage_agent]
  end.

(** [agent.input_guardrails]: none of the three [Agent(...)] calls gives
    the argument, nothing appends to it, and the loop passes no
    [run_config] to [Runner.run]. *)
Definition input_guardrails {Guardrail : Type} (a : Agent)
    : list Guardrail :=
  match a with
  | triage_agent => []
  | faq_agent => []
  | seat_booking_agent => []
  end.

(** An element of [input_items]: the dict the loop builds for the user's
    message, or an item the SDK put in [to_input_list()]. *)
Inductive InputItem : Type :=
| Message (role : string) (content : string)
| SdkItem (payload : string).

(** The items of [result.new_items], by the class the loop tests for. *)
Inductive RunItem : Type :=
| MessageOutputItem (agent : Agent) (text : string)
| HandoffOutputItem (agent source target : Agent)
| ToolCallItem (agent : Agent)
| ToolCallOutputItem (agent : Agent) (output : string)
| UnknownItem (agent : Agent) (cls : string).

Record RunResult : Type := mkRunResult {
  new_items : list RunItem;
  to_input_list : list InputItem;
  last_agent : Agent
}.

(** [Runner.run(agent, input_items, context=context)]: the SDK.  It may
    change the shared context through the tools and hooks, and it returns
    or raises.  The first argument numbers the call. *)
Definition Runner : Type :=
  nat -> Agent -> list InputItem -> AirlineAgentContext ->
  AirlineAgentContext * result RunResult.

(** What the loop does that can be seen from outside. *)
Inductive event : Type :=
| EvInput (line : string)
| EvRun (agent : Agent) (items : list InputItem)
| EvPrint (line : string).

Definition render_item (item : RunItem) : string :=
  match item with
  | MessageOutputItem a text => agent_name a ++ ": " ++ text
  | HandoffOutputItem _ source target =>
      "Handed off from " ++ agent_name source ++ " to " ++ agent_name target
  | ToolCallItem a => agent_name a ++ ": Calling a tool"
  | ToolCallOutputItem a output =>
      agent_name a ++ ": Tool call output: " ++ output
  | UnknownItem a cls => agent_name a ++ ": Skipping item: " ++ cls
  end.

(** The loop's variables. *)
Record LoopState : Type := mkLoop {
  current_agent : Agent;
  input_items : list InputItem;
  context : AirlineAgentContext
}.

(** [main]'s state before the first iteration. *)
Definition initial_state : LoopState :=
  mkLoop triage_agent [] empty_context.

(** One iteration of [while True], once [input()] has returned
    [user_input]: the message is appended, the agent runs, and only when
    the run returns are [input_items] and [current_agent] replaced.  An
    exception of the run is not caught anywhere in [main]. *)
Definition turn (run : Runner) (n : nat) (st : LoopState)
    (user_input : string) : list event * LoopState * option exn :=
  let items := (input_items st ++ [Message "user" user_input])%list in
  let '(context', outcome) := run n (current_agent st) items (context st) in
  let before := [EvInput user_input; EvRun (current_agent st) items] in
  match outcome with
  | inl e => (before, mkLoop (current_agent st) items context', Some e)
  | inr r =>
      ((before ++ map (fun i => EvPrint (render_item i)) (new_items r))%list,
       mkLoop (last_agent r) (to_input_list r) context',
       None)
  end.

(** The loop over the lines the user types, from iteration [n] on.  It ends
    with [Some e] when an iteration raised [e], and with [None] when the
    lines given are used up and the loop waits in [input()]. *)
Fixpoint main_loop (run : Runner) (n : nat) (st : LoopState)
    (lines : list string) : list event * LoopState * option exn :=
  match lines with
  | [] => ([], st, None)
  | line :: rest =>
      match turn run n st line with
      | (evs, st', Some e) => (evs, st', Some e)
      | (evs, st', None) =>
          let '(evs', st'', status) := main_loop run (S n) st' rest in
          ((evs ++ evs')%list, st'', status)
      end
  end.

Definition main (run : Runner) (lines : list string)
    : list event * LoopState * option exn :=
  main_loop run 0 initial_state lines.

(** The [items] of every [Runner.run] call in a trace, in order. *)
Fixpoint runs_of (evs : list event) : list (list InputItem) :=
  match evs with
  | [] => []
  | EvRun _ items :: rest => items :: runs_of rest
  | _ :: rest => runs_of rest
  end.

End CustomerService.

(* ================================================================= *)
(** ** 0302_Handoff.py *)

Module Handoff.
Import Py.

(** The newline of ["\n"] and [s * n] on [str]. *)
Definition nl : string := String (ascii_of_nat 10) "".

Fixpoint times (s : string) (n : nat) : string :=
  match n with
  | O => ""
  | S m => s ++ times s m
  end.

(** [class CustomerContext(BaseModel)]. *)
Record CustomerContext : Type := mkCustomer {
  customer_name : string;
  customer_id : string;
  subscription_tier : string;
  issue_category : option string
}.

(** The agents the script creates. *)
Inductive Agent : Type :=
| faq_agent
| order_agent
| refund_agent
| senior_support_agent
| tech_support_agent
| triage_agent.

Section Filters.

(** The SDK's item and context types: the filters never look inside. *)
Variables TResponseInputItem RunItem RunContext : Type.

(** [input_history: str | tuple[TResponseInputItem, ...]]. *)
Inductive InputHistory : Type :=
| HistoryStr (text : string)
| HistoryTuple (items : list TResponseInputItem).

(** [HandoffInputData] as the filters build it: four fields. *)
Record HandoffInputData : Type := mkHandoffInputData {
  input_history : InputHistory;
  pre_handoff_items : list RunItem;
  new_items : list RunItem;
  run_context : option RunContext
}.

(** [filter_remove_sensitive_info(data)]. *)
Definition filter_remove_sensitive_info (data : HandoffInputData)
    : HandoffInputData :=
  mkHandoffInputData (input_history data) (pre_handoff_items data)
                     (new_items data) (run_context data).

(** [filter_summary_only(data)]: [input_history[-3:]] on a tuple. *)
Definition filter_summary_only (data : HandoffInputData)
    : HandoffInputData :=
  let trimmed_history :=
    match input_history data with
    | HistoryTuple items => HistoryTuple (slice_from (-3) items)
    | other => other
    end in
  mkHandoffInputData trimmed_history (pre_handoff_items data)
                     (new_items data) (run_context data).

End Filters.

Arguments HistoryStr {TResponseInputItem} text.

(** What [run_scenario] reads of the run's result: [final_output] as
    [print] shows it, and [agent_name] when [hasattr] finds it. *)
Record RunResult : Type := mkRunResult {
  final_output : string;
  agent_name : option string
}.

(** [Runner.run(starting_agent=..., input=..., context=..., max_turns=...)]. *)
Definition Runner : Type :=
  Agent -> string -> CustomerContext -> Z -> result RunResult.

Inductive event : Type :=
| EvPrint (line : string)
| EvRun (starting_agent : Agent) (input : string)
        (context : CustomerContext) (max_turns : Z).

(** [run_scenario(scenario_name, customer_query, context)]: the trace it
    leaves and what it returns; an exception outside [Exception] is not
    caught and comes out of it. *)
Definition run_scenario (run : Runner) (scenario_name customer_query : string)
    (context : CustomerContext) : list event * result bool :=
  let header :=
    [EvPrint (nl ++ times "=" 60);
     EvPrint ("シナリオ: " ++ scenario_name);
     EvPrint (times "=" 60);
     EvPrint ("顧客: " ++ customer_name context ++ " ("
              ++ subscription_tier context ++ "会員)");
     EvPrint ("問い合わせ: " ++ customer_query);
     EvPrint (times "-" 60);
     EvRun triage_agent customer_query context 10]%list in
  match run triage_agent customer_query context 10%Z with
  | inr r =>
      let answer := [EvPrint (nl ++ "回答:"); EvPrint (final_output r)]%list in
      let agent :=
        match agent_name r with
        | Some a => [EvPrint (nl ++ "最終対応エージェント: " ++ a)]%list
        | None => []%list
        end in
      ((header ++ answer ++ agent)%list, inr true)
  | inl e =>
      if caught_by_Exception e then
        ((header ++
          [EvPrint (nl ++ "エラーが発生しました: " ++ class_name (exc_type e));
           EvPrint ("詳細: " ++ exc_str e)])%list,
         inr false)
      else (header, inl e)
  end.

(** The [Runner.run] calls of a trace. *)
Definition is_run (ev : event) : bool :=
  match ev with EvRun _ _ _ _ => true | EvPrint _ => false end.

(** The lines a trace prints. *)
Fixpoint printed (evs : list event) : list string :=
  match evs with
  | [] => []
  | EvPrint line :: rest => line :: printed rest
  | EvRun _ _ _ _ :: rest => printed rest
  end%list.

(** [check_environment()]: [key] is [os.environ.get("OPENAI_API_KEY")]. *)
Definition check_environment (key : option string)
    : list event * result unit :=
  if unset key then
    ([EvPrint "エラー: 環境変数 'OPENAI_API_KEY' が設定されていません。";
      EvPrint "設定方法:";
      EvPrint "  Linux/Mac: export OPENAI_API_KEY='your-api-key-here'";
      EvPrint "  Windows: set OPENAI_API_KEY=your-api-key-here"]%list,
     inl (sys_exit 1))
  else ([EvPrint ("✓ OPENAI_API_KEY が設定されています" ++ nl)]%list, inr tt).

(** An entry of [scenarios] in [main]. *)
Record Scenario : Type := mkScenario {
  scenario_name : string;
  scenario_query : string;
  scenario_context : CustomerContext
}.

Definition scenarios : list Scenario :=
  [mkScenario "FAQ問い合わせ"
     "パスワードをリセットする方法を教えてください"
     (mkCustomer "田中太郎" "CUST001" "standard" None);
   mkScenario "注文状況確認"
     "注文番号ORD-2024-001の配送状況を確認したいです"
     (mkCustomer "佐藤花子" "CUST002" "premium" None);
   mkScenario "返金リクエスト"
     "注文番号ORD-2024-002の商品が破損していたので、5000円の返金をお願いします"
     (mkCustomer "鈴木一郎" "CUST003" "standard" None);
   mkScenario "技術的な問題"
     "アプリが頻繁にクラッシュします。エラーコードERR_500が表示されます"
     (mkCustomer "高橋美咲" "CUST004" "premium" None);
   mkScenario "緊急エスカレーション"
     "3回も問い合わせているのに問題が解決しません。責任者と話したいです"
     (mkCustomer "山田次郎" "CUST005" "premium" (Some "unresolved"))]%list.

(** What [main] does: the events of a scenario, and [asyncio.sleep]. *)
Inductive main_event : Type :=
| Ev (ev : event)
| EvSleep (seconds : Z).

(** [for scenario in scenarios]: each scenario runs, a success is counted,
    and the loop sleeps a second.  An exception that comes out of
    [run_scenario] leaves the loop. *)
Fixpoint run_scenarios (run : Runner) (todo : list Scenario)
    (success_count : nat) : list main_event * result nat :=
  match todo with
  | [] => ([], inr success_count)
  | scenario :: rest =>
      match run_scenario run (scenario_name scenario)
              (scenario_query scenario) (scenario_context scenario) with
      | (evs, inl e) => (map Ev evs, inl e)
      | (evs, inr success) =>
          let '(evs', outcome) :=
            run_scenarios run rest
              (if success then S success_count else success_count) in
          (map Ev evs ++ EvSleep 1 :: evs', outcome)
      end
  end%list.

(** The lines of the summary [main] prints for [success_count] successes
    out of [total] scenarios. *)
Definition summary (success_count total : nat) : list main_event :=
  [Ev (EvPrint (nl ++ times "=" 60));
   Ev (EvPrint "実行結果サマリー");
   Ev (EvPrint (times "=" 60));
   Ev (EvPrint ("成功: " ++ str_of_int (Z.of_nat success_count) ++ "/"
                ++ str_of_int (Z.of_nat total) ++ " シナリオ"));
   Ev (EvPrint
         (if Nat.eqb success_count total
          then "✅ すべてのシナリオが正常に実行されました"
          else "⚠️ "
               ++ str_of_int (Z.of_nat total - Z.of_nat success_count)
               ++ " 個のシナリオでエラーが発生しました"))]%list.

(** [main()], for a list of scenarios (the script's is [scenarios]). *)
Definition main_on (todo : list Scenario) (key : option string) (run : Runner)
    : list main_event * result unit :=
  let banner :=
    [Ev (EvPrint (times "=" 60));
     Ev (EvPrint "OpenAI Agents SDK - Handoff サンプルプログラム");
     Ev (EvPrint "カスタマーサポートシステムのシミュレーション");
     Ev (EvPrint (times "=" 60 ++ nl))]%list in
  match check_environment key with
  | (evs, inl e) => ((banner ++ map Ev evs)%list, inl e)
  | (evs, inr _) =>
      match run_scenarios run todo 0 with
      | (evs', inl e) => ((banner ++ map Ev evs ++ evs')%list, inl e)
      | (evs', inr success_count) =>
          ((banner ++ map Ev evs ++ evs'
            ++ summary success_count (List.length todo))%list,
           inr tt)
      end
  end.

Definition main : option string -> Runner -> list main_event * result unit :=
  main_on scenarios.

(** The scenarios whose run returns. *)
Definition succeeds (run : Runner) (scenario : Scenario) : bool :=
  returned (run triage_agent (scenario_query scenario)
              (scenario_context scenario) 10%Z).

(** The runs and the sleeps of a trace of [main]. *)
Definition is_main_run (ev : main_event) : bool :=
  match ev with Ev (EvRun _ _ _ _) => true | _ => false end.

Definition is_sleep (ev : main_event) : bool :=
  match ev with EvSleep _ => true | _ => false end.

Definition is_run_or_sleep (ev : main_event) : bool :=
  is_main_run ev || is_sleep ev.

End Handoff.

(* ================================================================= *)
(** ** 0201_Context.py *)

Module Context.
Import Py.

(** [@dataclass class UserContext]. *)
Record UserContext : Type := mkUser {
  name : string;
  user_id : string;
  language : string;
  is_premium_user : bool;
  location : string;
  preferences : list (string * string);
  purchase_history : list string
}.

(** The constructor with [__post_init__]: a [purchase_history] of [None]
    (the default) becomes the empty list. *)
Definition UserContext_init (name user_id language : string)
    (is_premium_user : bool) (location : string)
    (preferences : list (string * string))
    (purchase_history : option (list string)) : UserContext :=
  mkUser name user_id language is_premium_user location preferences
         match purchase_history with
         | None => []%list
         | Some h => h
         end.

(** [check_purchase_history(context)]: [purchase_history[:5]], joined. *)
Definition check_purchase_history (user : UserContext) : string :=
  match purchase_history user with
  | []%list => name user ++ "様の購入履歴はまだありません"
  | _ =>
      let history_text := join ", " (slice_to 5 (purchase_history user)) in
      name user ++ "様の最近の購入: " ++ history_text
  end.

(** [get_personalized_recommendation(context, category)]: the dict is
    chosen by [is_premium_user], and [.get] falls back on a fixed text. *)
Definition get_personalized_recommendation (user : UserContext)
    (category : string) : string :=
  let recommendations :=
    if is_premium_user user then
      [("food", name user ++ "様、" ++ location user
                ++ "近くの高級レストランをお勧めします");
       ("shopping", "プレミアム会員限定の特別セールがあります");
       ("entertainment", "VIPイベントへのアクセスが可能です")]
    else
      [("food", location user ++ "エリアの人気レストランをご紹介");
       ("shopping", "今週のお得な商品情報");
       ("entertainment", "無料で楽しめるイベント情報")] in
  dict_get recommendations category "該当するレコメンドが見つかりません".

(** What the examples read of a run's result: [final_output], and for each
    item of [new_items] its [type] when it has the attribute. *)
Record RunResult : Type := mkRunResult {
  final_output : string;
  new_items : list (option string)
}.

(** [Runner.run(agent, question, context=user)], the calls numbered. *)
Definition Runner : Type := nat -> string -> UserContext -> result RunResult.

Inductive event : Type :=
| EvPrint (line : string)
| EvRun (question : string) (user : UserContext).

(** [hasattr(item, 'type') and 'tool' in item.type]. *)
Definition is_tool_call (item : option string) : bool :=
  match item with
  | Some type => str_in "tool" type
  | None => false
  end.

(** The loop of [run_example] over the questions left, from call [i] on;
    nothing in it catches an exception of the run. *)
Fixpoint ask_all (run : Runner) (user_context : UserContext) (i : nat)
    (questions : list string) : list event * result nat :=
  match questions with
  | [] => ([], inr i)
  | question :: rest =>
      let before :=
        [EvPrint (Handoff.nl ++ "質問: " ++ question);
         EvPrint (Handoff.times "-" 30);
         EvRun question user_context] in
      match run i question user_context with
      | inl e => (before, inl e)
      | inr r =>
          let tool_calls := filter is_tool_call (new_items r) in
          let used :=
            match tool_calls with
            | [] => []
            | _ => [EvPrint ("使用ツール: "
                             ++ str_of_int (Z.of_nat (List.length tool_calls))
                             ++ "個")]
            end in
          let '(evs, outcome) := ask_all run user_context (S i) rest in
          (before ++ EvPrint ("回答: " ++ final_output r) :: used ++ evs,
           outcome)
      end
  end%list.

(** The user and the questions of [run_example]. *)
Definition example_user : UserContext :=
  UserContext_init "田中太郎" "user_12345" "日本語" true "東京"
    [("cuisine", "和食"); ("shopping", "エレクトロニクス")]
    (Some ["ノートPC"; "ワイヤレスイヤホン"; "スマートウォッチ"]).

Definition example_questions : list string :=
  ["私のステータスを教えてください";
   "食事のレコメンドをお願いします";
   "私の購入履歴を確認してください";
   "ショッピングのおすすめはありますか？"].

(** [run_example()], its calls numbered from [i]; it returns the number of
    the next call. *)
Definition run_example (run : Runner) (i : nat) : list event * result nat :=
  let banner :=
    [EvPrint (Handoff.times "=" 50);
     EvPrint "OpenAI Agents SDK - コンテキスト使用デモ";
     EvPrint (Handoff.times "=" 50)] in
  let '(evs, outcome) := ask_all run example_user i example_questions in
  ((banner ++ evs)%list, outcome).

(** The loop of [multi_user_example] over the users left. *)
Fixpoint ask_users (run : Runner) (i : nat) (users : list UserContext)
    : list event * result nat :=
  match users with
  | [] => ([], inr i)
  | user :: rest =>
      let before :=
        [EvPrint (Handoff.nl ++ "【ユーザー: " ++ name user ++ "】");
         EvRun "私に合ったレコメンドをください" user] in
      match run i "私に合ったレコメンドをください" user with
      | inl e => (before, inl e)
      | inr r =>
          let '(evs, outcome) := ask_users run (S i) rest in
          (before ++ EvPrint ("回答: " ++ final_output r) :: evs, outcome)
      end
  end%list.

Definition example_users : list UserContext :=
  [UserContext_init "山田花子" "user_11111" "日本語" false "大阪"
     [("cuisine", "イタリアン")] (Some ["書籍"; "文房具"]);
   UserContext_init "John Smith" "user_22222" "English" true "Tokyo"
     [("cuisine", "Sushi")] (Some ["Camera"; "Laptop"; "Headphones"])].

(** [multi_user_example()]. *)
Definition multi_user_example (run : Runner) (i : nat)
    : list event * result nat :=
  let banner :=
    [EvPrint (Handoff.nl ++ Handoff.times "=" 50);
     EvPrint "複数ユーザーでのコンテキスト切り替えデモ";
     EvPrint (Handoff.times "=" 50)] in
  let '(evs, outcome) := ask_users run i example_users in
  ((banner ++ evs)%list, outcome).

(** [main()]: the two examples in a [try]; an exception of class
    [Exception] is printed and [main] returns. *)
Definition main (run : Runner) : list event * result unit :=
  let handle (evs : list event) (e : exn) : list event * result unit :=
    if caught_by_Exception e
    then ((evs ++ [EvPrint ("エラーが発生しました: " ++ exc_str e)])%list, inr tt)
    else (evs, inl e) in
  match run_example run 0 with
  | (evs, inl e) => handle evs e
  | (evs, inr i) =>
      match multi_user_example run i with
      | (evs', inl e) => handle (evs ++ evs')%list e
      | (evs', inr _) => ((evs ++ evs')%list, inr tt)
      end
  end.

(** The [Runner.run] calls of a trace, in order. *)
Fixpoint runs_of (evs : list event) : list (string * UserContext) :=
  match evs with
  | [] => []
  | EvRun question user :: rest => (question, user) :: runs_of rest
  | EvPrint _ :: rest => runs_of rest
  end%list.

End Context.

(* ================================================================= *)
(** ** The SDK's guardrail result, as both guardrail scripts build it *)

Module Sdk.

(** [output_info]: what the guardrail computed, or the dict
    [{"error": str(e)}] of the [except] branch. *)
Inductive OutputInfo (A : Type) : Type :=
| Info (value : A)
| ErrorInfo (error : string).

Arguments ErrorInfo {A} error.

(** [GuardrailFunctionOutput(output_info=..., tripwire_triggered=...)]. *)
Record GuardrailFunctionOutput (A : Type) : Type := mkOutput {
  output_info : OutputInfo A;
  tripwire_triggered : bool
}.

(** The literal [0.7] as Python reads it: the binary64 value nearest to
    7/10. *)
Definition literal_0_7 : float := 0x1.6666666666666p-1%float.

(** The verdict of a guardrail call: [Some] of its [tripwire_triggered]
    when it returned, [None] when it raised. *)
Definition verdict {A : Type}
    (call : list string * Py.result (GuardrailFunctionOutput A)) : option bool :=
  match snd call with
  | inr out => Some (tripwire_triggered out)
  | inl _ => None
  end.

End Sdk.

(* ================================================================= *)
(** ** 0206_Guardrail.py *)

Module Guardrail0206.
Import Py Sdk.

Record UserContext : Type := mkUser {
  name : string;
  user_type : string
}.

Record InappropriateContentOutput : Type := mkInappropriate {
  is_inappropriate : bool;
  reason : string;
  confidence_score : float
}.

Record ProfessionalityOutput : Type := mkProfessionality {
  is_professional : bool;
  issues : list string;
  severity : string
}.

Record CustomerResponse : Type := mkResponse {
  response : string;
  category : string;
  confidence : float
}.

Section Guardrails.

(** An input item of the SDK with its [str(item)], and the format
    [f"{x:.2f}"] of a float. *)
Variable TResponseInputItem : Type.
Variable str_item : TResponseInputItem -> string.
Variable format_2f : float -> string.

(** [text_input]: a list of items is joined from their [str], any other
    input is its own text. *)
Definition text_input (input_data : string + list TResponseInputItem)
    : string :=
  match input_data with
  | inr items => join " " (map str_item items)
  | inl text => text
  end.

(** [inappropriate_content_guardrail(ctx, agent, input_data)]: the lines
    it prints and what it returns.  [run] is
    [Runner.run(guardrail_agent, text_input, context=ctx.context)]
    followed by [.final_output]. *)
Definition inappropriate_content_guardrail
    (run : string -> UserContext -> result InappropriateContentOutput)
    (ctx : UserContext) (input_data : string + list TResponseInputItem)
    : list string * result (GuardrailFunctionOutput InappropriateContentOutput) :=
  match run (text_input input_data) ctx with
  | inr out =>
      (["🛡️  [Input Guardrail] 不適切コンテンツチェック結果:";
        "   判定: " ++ (if is_inappropriate out then "⚠️ 不適切" else "✅ 適切");
        "   理由: " ++ reason out;
        "   信頼度: " ++ format_2f (confidence_score out)],
       inr (mkOutput (Info out)
              (is_inappropriate out
               && PrimFloat.ltb literal_0_7 (confidence_score out))))
  | inl e =>
      if caught_by_Exception e then
        (["❌ Input Guardrailでエラー: " ++ exc_str e],
         inr (mkOutput (ErrorInfo (exc_str e)) false))
      else ([]%list, inl e)
  end.

(** [professionality_guardrail(ctx, agent, output)]. *)
Definition professionality_guardrail
    (run : string -> UserContext -> result ProfessionalityOutput)
    (ctx : UserContext) (output : CustomerResponse)
    : list string * result (GuardrailFunctionOutput ProfessionalityOutput) :=
  match run (response output) ctx with
  | inr check_result =>
      let should_trigger :=
        negb (is_professional check_result)
        && String.eqb (severity check_result) "high" in
      (List.app
         ["🛡️  [Output Guardrail] プロフェッショナリティチェック結果:";
          "   判定: " ++ (if is_professional check_result
                          then "✅ 適切" else "⚠️ 問題あり");
          "   重要度: " ++ severity check_result]
         match issues check_result with
         | [] => []
         | _ => ["   問題点: " ++ join ", " (issues check_result)]
         end,
       inr (mkOutput (Info check_result) should_trigger))
  | inl e =>
      if caught_by_Exception e then
        (["❌ Output Guardrailでエラー: " ++ exc_str e],
         inr (mkOutput (ErrorInfo (exc_str e)) false))
      else ([]%list, inl e)
  end.

(** [customer_support_agent]'s [input_guardrails] and [output_guardrails]:
    one function each. *)
Definition input_guardrails :=
  [inappropriate_content_guardrail]%list.

Definition output_guardrails :=
  [professionality_guardrail]%list.

(** The test cases of [test_agent_with_guardrails]. *)
Record TestCase : Type := mkCase {
  case_input : string;
  case_description : string
}.

Definition test_cases : list TestCase :=
  [mkCase "返金ポリシーについて教えてください"
          "適切な質問（Guardrailは通過する）";
   mkCase "おい、サポート！速く答えろ！"
          "不適切な質問（Input Guardrailでブロックされる可能性）";
   mkCase "数学の宿題を手伝ってください: 2x + 3 = 11 の x を求めてください"
          "業務外の質問（Input Guardrailでブロックされる可能性）"]%list.

(** [Runner.run(customer_support_agent, test_case['input'],
    context=user_context)], the call numbered by its test case. *)
Definition Runner : Type :=
  nat -> string -> UserContext -> result CustomerResponse.

Inductive event : Type :=
| EvPrint (line : string)
| EvRun (input : string) (context : UserContext).

(** The [詳細:] lines of the input-tripwire handler: one per guardrail
    result whose [output_info] has a [reason]. *)
Definition reason_lines (e : exn) : list event :=
  match guardrail_results e with
  | Some results =>
      flat_map (fun r =>
        match r with
        | Some (InfoView (Some why) _) => [EvPrint ("詳細: " ++ why)]
        | _ => []
        end) results
  | None => []
  end%list.

(** The [問題点:] lines of the output-tripwire handler. *)
Definition issue_lines (e : exn) : list event :=
  match guardrail_results e with
  | Some results =>
      flat_map (fun r =>
        match r with
        | Some (InfoView _ (Some found)) =>
            [EvPrint ("問題点: " ++ join ", " found)]
        | _ => []
        end) results
  | None => []
  end%list.

(** One iteration of the loop over the test cases: the trace, and the
    exception that leaves the loop when no handler takes it. *)
Definition run_case (run : Runner) (user_context : UserContext)
    (i : nat) (test_case : TestCase) : list event * option exn :=
  let before :=
    [EvPrint (Handoff.nl ++ "📝 テストケース "
              ++ str_of_int (Z.of_nat i) ++ ": "
              ++ case_description test_case);
     EvPrint ("入力: 「" ++ case_input test_case ++ "」");
     EvPrint (Handoff.times "-" 60);
     EvRun (case_input test_case) user_context]%list in
  let after := [EvPrint (Handoff.times "-" 60)]%list in
  match run i (case_input test_case) user_context with
  | inr r =>
      ((before ++
        [EvPrint "✅ 実行成功";
         EvPrint ("💬 応答: " ++ response r);
         EvPrint ("📊 カテゴリ: " ++ category r);
         EvPrint ("🎯 信頼度: " ++ format_2f (confidence r))] ++ after)%list,
       None)
  | inl e =>
      match exc_type e with
      | InputGuardrailTripwireTriggered =>
          ((before ++
            [EvPrint "🚨 Input Guardrail がトリガーされました";
             EvPrint "理由: 不適切な入力が検出されました"] ++
            reason_lines e ++ after)%list,
           None)
      | OutputGuardrailTripwireTriggered =>
          ((before ++
            [EvPrint "🚨 Output Guardrail がトリガーされました";
             EvPrint "理由: 不適切な応答が検出されました"] ++
            issue_lines e ++ after)%list,
           None)
      | c =>
          if is_Exception c then
            ((before ++
              [EvPrint ("❌ 予期しないエラー: " ++ exc_str e);
               EvPrint ("エラータイプ: " ++ class_name c)] ++ after)%list,
             None)
          else (before, Some e)
      end
  end.

(** [for i, test_case in enumerate(test_cases, i)]. *)
Fixpoint run_cases (run : Runner) (user_context : UserContext)
    (i : nat) (cases : list TestCase) : list event * option exn :=
  match cases with
  | [] => ([], None)
  | test_case :: rest =>
      match run_case run user_context i test_case with
      | (evs, Some e) => (evs, Some e)
      | (evs, None) =>
          let '(evs', status) := run_cases run user_context (S i) rest in
          (evs ++ evs', status)
      end
  end%list.

(** [test_agent_with_guardrails(user_context)]. *)
Definition test_agent_with_guardrails (run : Runner)
    (user_context : UserContext) : list event * option exn :=
  let banner :=
    [EvPrint (Handoff.times "=" 80);
     EvPrint "🛡️  Guardrails デモンストレーション";
     EvPrint (Handoff.times "=" 80)]%list in
  let '(evs, status) := run_cases run user_context 1 test_cases in
  ((banner ++ evs)%list, status).

(** The inputs of the [Runner.run] calls of a trace, in order. *)
Fixpoint run_inputs (evs : list event) : list string :=
  match evs with
  | [] => []
  | EvRun text _ :: rest => text :: run_inputs rest
  | EvPrint _ :: rest => run_inputs rest
  end%list.


End Guardrails.

(** [get_company_policy(topic)]. *)
Definition policies : list (string * string) :=
  [("refund", "30日以内の未使用商品は全額返金可能です。");
   ("shipping", "通常配送は3-5営業日、お急ぎ便は翌日配送です。");
   ("support", "平日9:00-18:00にサポートを提供しています。")].

Definition get_company_policy (topic : string) : string :=
  dict_get policies topic "該当するポリシーが見つかりません。".

(** [check_api_key()]: [api_key] is [os.getenv("OPENAI_API_KEY")]. *)
Definition check_api_key (api_key : option string) : list event * bool :=
  if unset api_key then
    ([EvPrint "❌ エラー: 環境変数 OPENAI_API_KEY が設定されていません。";
      EvPrint "以下の方法で設定してください:";
      EvPrint "  Linux/Mac: export OPENAI_API_KEY='your-api-key-here'";
      EvPrint "  Windows: set OPENAI_API_KEY=your-api-key-here"]%list,
     false)
  else
    let warning :=
      match api_key with
      | Some key =>
          if String.prefix "sk-" key then []
          else [EvPrint "⚠️  警告: API キーの形式が正しくない可能性があります。";
                EvPrint "OpenAI API キーは通常 'sk-' で始まります。"]
      | None => []
      end%list in
    ((warning ++ [EvPrint "✅ API キーが正常に設定されています"])%list, true).

(** [main()]: it leaves with [sys.exit(1)] when the key check fails; inside
    its [try], [KeyboardInterrupt] becomes [sys.exit(0)] and an exception of
    class [Exception] becomes [sys.exit(1)]. *)
Definition main (format_2f : float -> string) (api_key : option string)
    (run : Runner) : list event * result unit :=
  let '(key_lines, ok) := check_api_key api_key in
  if negb ok then (key_lines, inl (sys_exit 1))
  else
    let user_context := mkUser "田中様" "customer" in
    let intro :=
      [EvPrint "🎪 OpenAI Agents SDK - Guardrails デモ";
       EvPrint ("ユーザー: " ++ name user_context ++ " ("
                ++ user_type user_context ++ ")")]%list in
    let '(evs, status) :=
      test_agent_with_guardrails format_2f run user_context in
    let done := (key_lines ++ intro ++ evs)%list in
    match status with
    | None =>
        ((done ++
          [EvPrint (Handoff.nl ++ "🎉 すべてのテストが完了しました！");
           EvPrint (Handoff.times "=" 80)])%list,
         inr tt)
    | Some e =>
        match exc_type e with
        | KeyboardInterrupt =>
            ((done ++
              [EvPrint (Handoff.nl ++ Handoff.nl
                        ++ "⚠️  プログラムが中断されました。")])%list,
             inl (sys_exit 0))
        | c =>
            if is_Exception c then
              ((done ++
                [EvPrint (Handoff.nl ++ "❌ 予期しないエラーが発生しました: "
                          ++ exc_str e);
                 EvPrint ("エラー詳細: " ++ class_name c)])%list,
               inl (sys_exit 1))
            else (done, inl e)
        end
    end.


End Guardrail0206.

(* ================================================================= *)
(** ** 0401_Guardrail.py *)

Module Guardrail0401.
Import Py Sdk.

Record MathHomeworkDetection : Type := mkMath {
  is_math_homework : bool;
  math_reasoning : string;
  confidence_score : float
}.

Record InappropriateContentDetection : Type := mkInappropriate {
  is_inappropriate : bool;
  reasoning : string;
  severity : string
}.

Record CustomerSupportResponse : Type := mkResponse {
  response : string;
  category : string;
  helpful : bool
}.

(** The dict both guardrails put in [output_info] when the check ran. *)
Record Detection (A : Type) : Type := mkDetection {
  detection_type : string;
  detection_result : A;
  detection_tripwire : bool
}.

Section Guardrails.

Variable TResponseInputItem : Type.
Variable Context : Type.
Variable format_2f : float -> string.

(** [math_homework_input_guardrail(ctx, agent, input)]; [run] is
    [Runner.run(math_homework_guardrail_agent, input, context=ctx.context)]
    followed by [.final_output]. *)
Definition math_homework_input_guardrail
    (run : string + list TResponseInputItem -> Context ->
           result MathHomeworkDetection)
    (ctx : Context) (input : string + list TResponseInputItem)
    : list string * result (GuardrailFunctionOutput (Detection MathHomeworkDetection)) :=
  let start := "🔍 Input Guardrail: 数学宿題チェックを実行中..." in
  match run input ctx with
  | inr detection_result =>
      let tripwire_should_trigger :=
        is_math_homework detection_result
        && PrimFloat.leb literal_0_7 (confidence_score detection_result) in
      ([start;
        "   判定結果: " ++ (if is_math_homework detection_result
                            then "数学宿題" else "正常な質問");
        "   理由: " ++ math_reasoning detection_result;
        "   信頼度: " ++ format_2f (confidence_score detection_result)],
       inr (mkOutput
              (Info (mkDetection "math_homework" detection_result
                                 tripwire_should_trigger))
              tripwire_should_trigger))
  | inl e =>
      if caught_by_Exception e then
        ([start; "❌ Input Guardrailでエラーが発生: " ++ exc_str e],
         inr (mkOutput (ErrorInfo (exc_str e)) true))
      else ([start]%list, inl e)
  end.

(** [inappropriate_content_output_guardrail(ctx, agent, output)]. *)
Definition inappropriate_content_output_guardrail
    (run : string -> Context -> result InappropriateContentDetection)
    (ctx : Context) (output : CustomerSupportResponse)
    : list string * result (GuardrailFunctionOutput (Detection InappropriateContentDetection)) :=
  let start := "🔍 Output Guardrail: 不適切コンテンツチェックを実行中..." in
  match run (response output) ctx with
  | inr detection_result =>
      let tripwire_should_trigger :=
        is_inappropriate detection_result
        && existsb (String.eqb (severity detection_result))
                   ["medium"; "high"]%list in
      ([start;
        "   判定結果: " ++ (if is_inappropriate detection_result
                            then "不適切" else "適切");
        "   理由: " ++ reasoning detection_result;
        "   重要度: " ++ severity detection_result],
       inr (mkOutput
              (Info (mkDetection "inappropriate_content" detection_result
                                 tripwire_should_trigger))
              tripwire_should_trigger))
  | inl e =>
      if caught_by_Exception e then
        ([start; "❌ Output Guardrailでエラーが発生: " ++ exc_str e],
         inr (mkOutput (ErrorInfo (exc_str e)) true))
      else ([start]%list, inl e)
  end.

(** [customer_support_agent]'s [input_guardrails] and [output_guardrails]:
    one function each. *)
Definition input_guardrails :=
  [math_homework_input_guardrail]%list.

Definition output_guardrails :=
  [inappropriate_content_output_guardrail]%list.

End Guardrails.

(** The [ValueError] of [load_environment]. *)
Definition missing_key : exn :=
  Exn (OtherException "ValueError")
      ("OPENAI_API_KEYが設定されていません。" ++ Handoff.nl
       ++ ".envファイルに以下の形式で設定してください：" ++ Handoff.nl
       ++ "OPENAI_API_KEY=your_api_key_here") None.

(** [load_environment()]: [api_key] is [os.getenv("OPENAI_API_KEY")] once
    [load_dotenv()] has run. *)
Definition load_environment (api_key : option string)
    : list string * result string :=
  match api_key with
  | Some key =>
      if unset api_key then ([], inl missing_key)
      else (["✅ 環境変数の読み込みが完了しました"], inr key)
  | None => ([], inl missing_key)
  end.

(** The test cases of [test_guardrails]. *)
Record TestCase : Type := mkCase {
  case_name : string;
  case_input : string;
  should_trigger_input : bool
}.

Definition test_cases : list TestCase :=
  [mkCase "正常な質問" "製品の返品方法を教えてください。" false;
   mkCase "数学の宿題（Input Guardrailがトリガーされるはず）"
          "宿題の数学の問題を手伝ってください。2x + 3 = 11のxを求めてください。"
          true;
   mkCase "技術的な質問" "アプリのログイン方法がわかりません。" false].

(** [Runner.run(customer_support_agent, test_case["input"])], the call
    numbered by its test case. *)
Definition Runner : Type := nat -> string -> result CustomerSupportResponse.

Inductive event : Type :=
| EvPrint (line : string)
| EvRun (input : string)
| EvSetTracingDisabled (disabled : bool).

(** One iteration of the loop of [test_guardrails]: the three handlers take
    every exception of class [Exception]. *)
Definition run_case (run : Runner) (i : nat) (test_case : TestCase)
    : list event * option exn :=
  let before :=
    [EvPrint (Handoff.nl ++ Handoff.times "=" 60);
     EvPrint ("テストケース " ++ str_of_int (Z.of_nat i) ++ ": "
              ++ case_name test_case);
     EvPrint ("入力: " ++ case_input test_case);
     EvPrint (Handoff.times "=" 60);
     EvRun (case_input test_case)]%list in
  match run i (case_input test_case) with
  | inr r =>
      ((before ++
        [EvPrint "✅ 実行成功";
         EvPrint ("応答: " ++ response r);
         EvPrint ("カテゴリ: " ++ category r);
         EvPrint ("有用性: " ++ (if helpful r then "はい" else "いいえ"))])%list,
       None)
  | inl e =>
      match exc_type e with
      | InputGuardrailTripwireTriggered =>
          ((before ++
            [EvPrint "🚨 Input Guardrail Tripwireが発動されました！";
             EvPrint "理由: 不適切な入力が検出されました";
             EvPrint (if should_trigger_input test_case
                      then "これは期待される動作です。"
                      else "予期しない動作です。")])%list,
           None)
      | OutputGuardrailTripwireTriggered =>
          ((before ++
            [EvPrint "🚨 Output Guardrail Tripwireが発動されました！";
             EvPrint "理由: 不適切な出力が検出されました"])%list,
           None)
      | c =>
          if is_Exception c then
            ((before ++
              [EvPrint ("❌ 予期しないエラーが発生しました: " ++ exc_str e);
               EvPrint ("エラータイプ: " ++ class_name c)])%list,
             None)
          else (before, Some e)
      end
  end.

(** [for i, test_case in enumerate(test_cases, i)]. *)
Fixpoint run_cases (run : Runner) (i : nat) (cases : list TestCase)
    : list event * option exn :=
  match cases with
  | [] => ([], None)
  | test_case :: rest =>
      match run_case run i test_case with
      | (evs, Some e) => (evs, Some e)
      | (evs, None) =>
          let '(evs', status) := run_cases run (S i) rest in
          (evs ++ evs', status)
      end
  end%list.

Definition test_guardrails (run : Runner) : list event * option exn :=
  run_cases run 1 test_cases.

(** [isinstance(e, ValueError)], by the name of the class: the only
    [ValueError] raised inside [main]'s [try] is the one of
    [load_environment]. *)
Definition is_ValueError (e : exn) : bool :=
  match exc_type e with
  | OtherException name => String.eqb name "ValueError"
  | _ => false
  end.

(** [main()]: the exit code it returns, or the exception that comes out. *)
Definition main (api_key : option string) (run : Runner)
    : list event * result Z :=
  let banner :=
    [EvPrint "🚀 OpenAI Agents SDK Guardrail サンプルプログラム開始";
     EvPrint (Handoff.times "=" 60)]%list in
  let handle (evs : list event) (e : exn) : list event * result Z :=
    if is_ValueError e then
      ((evs ++ [EvPrint ("❌ 環境設定エラー: " ++ exc_str e)])%list, inr 1%Z)
    else if caught_by_Exception e then
      ((evs ++ [EvPrint ("❌ 予期しないエラーが発生しました: " ++ exc_str e);
                EvPrint ("エラータイプ: " ++ class_name (exc_type e))])%list,
       inr 1%Z)
    else (evs, inl e) in
  match load_environment api_key with
  | (lines, inl e) => handle (banner ++ map EvPrint lines)%list e
  | (lines, inr _) =>
      let ready :=
        (banner ++ map EvPrint lines ++
         [EvSetTracingDisabled true;
          EvPrint "✅ トレーシングを無効化しました"])%list in
      match test_guardrails run with
      | (evs, Some e) => handle (ready ++ evs)%list e
      | (evs, None) =>
          ((ready ++ evs ++
            [EvPrint (Handoff.nl ++ Handoff.times "=" 60);
             EvPrint "🎉 全てのテストが完了しました"])%list,
           inr 0%Z)
      end
  end.

(** The inputs of the [Runner.run] calls of a trace, in order. *)
Fixpoint run_inputs (evs : list event) : list string :=
  match evs with
  | [] => []
  | EvRun text :: rest => text :: run_inputs rest
  | _ :: rest => run_inputs rest
  end%list.


End Guardrail0401.

(* ================================================================= *)
(** ** Statements about the scripts *)

(** [Substring needle s]: [needle] occurs in [s] as a contiguous block. *)
Definition Substring (needle s : string) : Prop :=
  exists before after : string, s = before ++ needle ++ after.

(** The combination the spec gives for the guardrails applied in one
    direction: blocked when at least one of their verdicts is a trip. *)
Definition any_tripped (verdicts : list (option bool)) : bool :=
  existsb (fun v => match v with Some true => true | _ => false end) verdicts.

Definition asks_baggage (q : string) : Prop :=
  Substring "バック" q \/ Substring "荷物" q.

Definition asks_seats (q : string) : Prop :=
  Substring "席" q \/ Substring "飛行機" q.

Definition asks_wifi (q : string) : Prop :=
  Substring "WiFi" q \/ Substring "Wi-Fi" q.

Section LoopStatements.
Import Py CustomerService.

(** The two functions of the script that write the context. *)
Inductive context_op : Type :=
| SeatUpdate (confirmation new_seat : string)
| SeatHandoff (drawn : Z).

Definition apply_op (context : AirlineAgentContext) (op : context_op)
    : AirlineAgentContext :=
  match op with
  | SeatUpdate confirmation new_seat =>
      fst (update_seat context confirmation new_seat)
  | SeatHandoff drawn => on_seat_booking_handoff drawn context
  end.

Definition apply_ops (context : AirlineAgentContext) (ops : list context_op)
    : AirlineAgentContext :=
  fold_left apply_op ops context.

End LoopStatements.

Section MoreStatements.
Import Py CustomerService.

(** The last seat update of a sequence of operations, and the number drawn
    by its last handoff. *)
Fixpoint last_seat_update (ops : list context_op) : option (string * string) :=
  match ops with
  | [] => None
  | SeatUpdate confirmation new_seat :: rest =>
      match last_seat_update rest with
      | Some later => Some later
      | None => Some (confirmation, new_seat)
      end
  | SeatHandoff _ :: rest => last_seat_update rest
  end%list.

Fixpoint last_handoff (ops : list context_op) : option Z :=
  match ops with
  | [] => None
  | SeatHandoff drawn :: rest =>
      match last_handoff rest with
      | Some later => Some later
      | None => Some drawn
      end
  | SeatUpdate _ _ :: rest => last_handoff rest
  end%list.

(** The character of a decimal digit. *)
Definition digit (d : Z) : ascii := ascii_of_nat (48 + Z.to_nat d).

(** [FLT-] followed by the three decimal digits of [drawn]. *)
Definition three_digit_flight (drawn : Z) : string :=
  "FLT-" ++ String (digit (drawn / 100))
              (String (digit (drawn / 10 mod 10))
                 (String (digit (drawn mod 10)) "")).

(** The lines the loop read, in order. *)
Fixpoint inputs_of (evs : list event) : list string :=
  match evs with
  | [] => []
  | EvInput line :: rest => line :: inputs_of rest
  | _ :: rest => inputs_of rest
  end%list.

(** [items] ends with the user's message [line]. *)
Definition ends_with_request (items : list InputItem) (line : string) : Prop :=
  exists before : list InputItem,
    items = (before ++ [Message "user" line])%list.

End MoreStatements.

(** The six runs of 0201's [main], when none fails: the four questions of
    [run_example] for its user, then the request of [multi_user_example]
    for each of its users. *)
Definition expected_runs : list (string * Context.UserContext) :=
  (map (fun question => (question, Context.example_user))
       Context.example_questions
   ++ map (fun user => ("私に合ったレコメンドをください", user))
          Context.example_users)%list.

(** [main] of 0201 stopped at the run of [question] for [user], the
    planned run number [j], which raised [e]: the runs made are the
    planned ones up to and including it, and the trace ends with that run
    and, for an exception of class [Exception], the line that reports it;
    an exception outside [Exception] comes out of [main]. *)
Definition main_stopped_at (run : Context.Runner) (j : nat)
    (question : string) (user : Context.UserContext) (e : Py.exn) : Prop :=
  Context.runs_of (fst (Context.main run)) = firstn (S j) expected_runs /\
  (Py.caught_by_Exception e = true ->
   snd (Context.main run) = inr tt /\
   exists before : list Context.event,
     fst (Context.main run)
     = (before ++
        [Context.EvRun question user;
         Context.EvPrint ("エラーが発生しました: " ++ Py.exc_str e)])%list) /\
  (Py.caught_by_Exception e = false ->
   snd (Context.main run) = inl e /\
   exists before : list Context.event,
     fst (Context.main run) = (before ++ [Context.EvRun question user])%list).

(* ================================================================= *)
(** ** Concrete runs *)

Module Samples.
Import Py Sdk.

(** [f"{x:.2f}"] is not computed here: the examples read no printed
    confidence. *)
Definition format_2f (x : float) : string := "?.??".

(** The checker's backend cannot be reached. *)
Definition checker_down : exn :=
  Exn (OtherException "APIConnectionError") "Connection error." None.

(** The run was cancelled. *)
Definition cancelled : exn := Exn CancelledError "" None.

(** The SDK's input tripwire and turn limit. *)
Definition input_tripwire : exn :=
  Exn InputGuardrailTripwireTriggered
      "Guardrail InputGuardrail triggered tripwire" None.

Definition turn_limit : exn :=
  Exn MaxTurnsExceeded "Max turns (10) exceeded" None.

Definition tanaka : Guardrail0206.UserContext :=
  Guardrail0206.mkUser "田中様" "customer".

Definition reply0206 : Guardrail0206.CustomerResponse :=
  Guardrail0206.mkResponse "30日以内の未使用商品は全額返金可能です。" "refund" 1.

Definition reply0401 : Guardrail0401.CustomerSupportResponse :=
  Guardrail0401.mkResponse "製品の返品方法をご案内します。" "returns" true.

Definition yamada : Handoff.CustomerContext :=
  Handoff.mkCustomer "山田次郎" "CUST005" "premium" (Some "unresolved").

Definition escalation_query : string :=
  "3回も問い合わせているのに問題が解決しません。責任者と話したいです".

(** A customer service run that answers the first message and raises [e]
    on every later one. *)
Definition answer_then_raise (e : exn) : CustomerService.Runner :=
  fun n agent items context =>
    match n with
    | O =>
        (context,
         inr (CustomerService.mkRunResult
                [CustomerService.MessageOutputItem agent "ご用件をどうぞ。"]
                (items ++ [CustomerService.SdkItem "assistant: ご用件をどうぞ。"])%list
                agent))
    | S _ => (context, inl e)
    end.

(** A customer service run that always raises [e]. *)
Definition always_raise (e : exn) : CustomerService.Runner :=
  fun _ _ _ context => (context, inl e).

(** A scenario run that always raises [e]. *)
Definition scenario_raise (e : exn) : Handoff.Runner :=
  fun _ _ _ _ => inl e.

(** A guardrail demo run that trips the input guardrail on the second
    test case and answers the others. *)
Definition demo_run : Guardrail0206.Runner :=
  fun i text _ =>
    match i with
    | 2%nat => inl input_tripwire
    | _ => inr (Guardrail0206.mkResponse text "general" 1)
    end.

(** A user with six purchases, appended in the order p1 ... p6. *)
Definition six_purchases : Context.UserContext :=
  Context.UserContext_init "田中太郎" "user_12345" "日本語" true "東京"
    [("cuisine", "和食")]
    (Some ["p1"; "p2"; "p3"; "p4"; "p5"; "p6"]).

(** Two standard users in the same city. *)
Definition osaka_reader : Context.UserContext :=
  Context.UserContext_init "山田花子" "user_11111" "日本語" false "大阪"
    [("cuisine", "イタリアン")] (Some ["書籍"; "文房具"]).

Definition osaka_walker : Context.UserContext :=
  Context.UserContext_init "佐藤次郎" "user_33333" "English" false "大阪"
    [] None.

(** A run of 0201's examples that cannot reach the backend on the second
    call and answers the others. *)
Definition second_call_fails : Context.Runner :=
  fun i question _ =>
    match i with
    | 1%nat => inl checker_down
    | _ => inr (Context.mkRunResult ("回答: " ++ question) [])
    end.

(** A scenario run that fails on the refund request and answers the other
    queries. *)
Definition refund_fails : Handoff.Runner :=
  fun _ query _ _ =>
    if str_in "返金" query then inl checker_down
    else inr (Handoff.mkRunResult "承知しました。" None).

(** A run of 0401's demo that trips the input guardrail on the second test
    case, fails on the third and answers the first. *)
Definition demo_run_0401 : Guardrail0401.Runner :=
  fun i text =>
    match i with
    | 2%nat => inl input_tripwire
    | 3%nat => inl checker_down
    | _ => inr (Guardrail0401.mkResponse text "general" true)
    end.

End Samples.

(* ================================================================= *)
(** * Properties *)

(** ** Strings and slices *)

Lemma prefix_iff_append (p s : string) :
  String.prefix p s = true <-> exists rest, s = p ++ rest.
Proof.
  revert s; induction p as [|a p IH]; intros s.
  - split; [intros _; now exists s | now destruct s].
  - destruct s as [|b s]; simpl.
    + split; [discriminate | intros [rest H]; discriminate].
    + destruct (Ascii.ascii_dec a b) as [->|Hab].
      * rewrite IH. split; intros [rest H]; exists rest.
        -- now rewrite H.
        -- now injection H.
      * split; [discriminate|].
        intros [rest H]. injection H as H1 _. now elim Hab.
Qed.

Lemma str_in_iff_Substring (needle s : string) :
  Py.str_in needle s = true <-> Substring needle s.
Proof.
  unfold Substring.
  induction s as [|c s IH].
  - change (Py.str_in needle "") with (String.prefix needle "" || false).
    rewrite orb_false_r, prefix_iff_append. split.
    + intros [rest H]. now exists "", rest.
    + intros [before [after H]].
      destruct before; simpl in H.
      * now exists after.
      * discriminate.
  - change (Py.str_in needle (String c s))
      with (String.prefix needle (String c s) || Py.str_in needle s).
    rewrite orb_true_iff, IH, prefix_iff_append. split.
    + intros [[rest H]|[before [after H]]].
      * now exists "", rest.
      * exists (String c before), after. simpl. now rewrite H.
    + intros [before [after H]].
      destruct before as [|b before]; simpl in H.
      * left. now exists after.
      * right. injection H as _ H. now exists before, after.
Qed.

Lemma str_in_false_iff (needle s : string) :
  Py.str_in needle s = false <-> ~ Substring needle s.
Proof.
  rewrite <- str_in_iff_Substring.
  destruct (Py.str_in needle s); split; intros H; try reflexivity;
    try discriminate; try (intros H'; discriminate).
  now elim H.
Qed.

(** [l[-k:]] for [k > 0] drops all but the last [k] elements. *)
Lemma slice_from_negative (A : Type) (k : nat) (l : list A) :
  (0 < k)%nat ->
  Py.slice_from (- Z.of_nat k) l = skipn (List.length l - k) l.
Proof.
  intros Hk. unfold Py.slice_from.
  replace (- Z.of_nat k <? 0)%Z with true by (symmetry; apply Z.ltb_lt; lia).
  f_equal. lia.
Qed.

(** [l[:k]] keeps the first [k] elements. *)
Lemma slice_to_nonnegative (A : Type) (k : nat) (l : list A) :
  Py.slice_to (Z.of_nat k) l = firstn k l.
Proof.
  unfold Py.slice_to.
  replace (Z.of_nat k <? 0)%Z with false by (symmetry; apply Z.ltb_ge; lia).
  destruct (Nat.le_gt_cases k (List.length l)) as [Hle|Hgt].
  - f_equal. lia.
  - replace (Z.to_nat (Z.min (Z.of_nat k) (Z.of_nat (List.length l))))
      with (List.length l) by lia.
    rewrite firstn_all. symmetry. apply firstn_all2. lia.
Qed.

Lemma last_three_is_suffix (A : Type) (l : list A) :
  exists dropped : list A,
    l = (dropped ++ Py.slice_from (-3) l)%list /\
    List.length (Py.slice_from (-3) l) = Nat.min 3 (List.length l).
Proof.
  change (-3)%Z with (- Z.of_nat 3)%Z.
  rewrite slice_from_negative by lia.
  exists (firstn (List.length l - 3) l). split.
  - symmetry. apply firstn_skipn.
  - rewrite length_skipn. lia.
Qed.

(** ** The FAQ tool *)

Section FaqLookup.
Import CustomerService.

Lemma either_keyword (a b q : string) :
  Py.str_in a q || Py.str_in b q = true <-> Substring a q \/ Substring b q.
Proof. now rewrite orb_true_iff, !str_in_iff_Substring. Qed.

Lemma neither_keyword (a b q : string) :
  Py.str_in a q || Py.str_in b q = false <-> ~ (Substring a q \/ Substring b q).
Proof.
  rewrite <- either_keyword.
  destruct (Py.str_in a q || Py.str_in b q); split; intros H;
    try reflexivity; try discriminate.
  now elim H.
Qed.

(** The four answers are four different strings. *)
Lemma answers_distinct :
  BAGGAGE_ANSWER <> SEATS_ANSWER /\ BAGGAGE_ANSWER <> WIFI_ANSWER /\
  BAGGAGE_ANSWER <> FALLBACK_ANSWER /\ SEATS_ANSWER <> WIFI_ANSWER /\
  SEATS_ANSWER <> FALLBACK_ANSWER /\ WIFI_ANSWER <> FALLBACK_ANSWER.
Proof. repeat split; apply String.eqb_neq; vm_compute; reflexivity. Qed.

(** C9. [faq_lookup_tool] is a total pure function of the question that
    returns one of the four fixed answers, chosen by the first keyword test
    that succeeds: baggage (バック or 荷物), then seats (席 or 飛行機), then
    WiFi (WiFi or Wi-Fi), and the fallback answer when none does. *)
Theorem faq_lookup_tool_first_match (question : string) :
  let answer := faq_lookup_tool question in
  (answer = BAGGAGE_ANSWER \/ answer = SEATS_ANSWER \/
   answer = WIFI_ANSWER \/ answer = FALLBACK_ANSWER) /\
  (answer = BAGGAGE_ANSWER <-> asks_baggage question) /\
  (answer = SEATS_ANSWER <->
     ~ asks_baggage question /\ asks_seats question) /\
  (answer = WIFI_ANSWER <->
     ~ asks_baggage question /\ ~ asks_seats question /\ asks_wifi question) /\
  (answer = FALLBACK_ANSWER <->
     ~ asks_baggage question /\ ~ asks_seats question /\ ~ asks_wifi question).
Proof.
  destruct answers_distinct as (BS & BW & BF & SW & SF & WF).
  unfold faq_lookup_tool, asks_baggage, asks_seats, asks_wifi. cbv zeta.
  destruct (Py.str_in "バック" question || Py.str_in "荷物" question) eqn:Bag.
  { apply either_keyword in Bag. intuition congruence. }
  apply neither_keyword in Bag.
  destruct (Py.str_in "席" question || Py.str_in "飛行機" question) eqn:Seat.
  { apply either_keyword in Seat. intuition congruence. }
  apply neither_keyword in Seat.
  destruct (Py.str_in "WiFi" question || Py.str_in "Wi-Fi" question) eqn:Wifi.
  { apply either_keyword in Wifi. intuition congruence. }
  apply neither_keyword in Wifi.
  intuition congruence.
Qed.

(** The baggage keyword is バック: a question that writes バッグ, as the
    baggage answer itself does, is not matched by it. *)
Example faq_lookup_tool_voiced_bag :
  faq_lookup_tool "バッグは持ち込めますか" = FALLBACK_ANSWER /\
  faq_lookup_tool "荷物の席はWiFiつきですか" = BAGGAGE_ANSWER /\
  faq_lookup_tool "席でWi-Fiは使えますか" = SEATS_ANSWER /\
  faq_lookup_tool "Wi-Fi?" = WIFI_ANSWER.
Proof. repeat split; vm_compute; reflexivity. Qed.

End FaqLookup.

(** ** The seat tool and the handoff hook *)

Section UpdateSeat.
Import Py CustomerService.

Lemma update_seat_keeps_flight (context : AirlineAgentContext)
    (confirmation new_seat : string) :
  flight_number (fst (update_seat context confirmation new_seat))
  = flight_number context.
Proof. unfold update_seat; simpl. now destruct (flight_number context). Qed.

Lemma apply_ops_keep_flight_set (ops : list context_op)
    (context : AirlineAgentContext) :
  flight_number context <> None ->
  flight_number (apply_ops context ops) <> None.
Proof.
  unfold apply_ops. revert context.
  induction ops as [|[confirmation new_seat|drawn] ops IH]; intros context H;
    simpl; auto; apply IH.
  - now rewrite update_seat_keeps_flight.
  - discriminate.
Qed.

(** C8. [update_seat] raises [AssertionError] exactly when the context's
    [flight_number] is [None] at the call.  After
    [on_seat_booking_handoff] has run on the context the flight number is a
    string, so [update_seat] returns its message, with
    [confirmation_number] and [seat_number] set and the other fields as the
    hook left them; and it still returns after any further seat updates
    and handoffs on that context. *)
Theorem update_seat_raises_iff_no_flight (context : AirlineAgentContext)
    (confirmation new_seat : string) :
  (snd (update_seat context confirmation new_seat)
     = inl (Exn AssertionError "フライト番号は必須です。" None)
   <-> flight_number context = None) /\
  (returned (snd (update_seat context confirmation new_seat)) = false
   <-> flight_number context = None) /\
  (forall drawn : Z,
     flight_number (on_seat_booking_handoff drawn context)
       = Some ("FLT-" ++ str_of_int drawn) /\
     update_seat (on_seat_booking_handoff drawn context) confirmation new_seat
       = (mkContext (passenger_name context) (Some confirmation)
                    (Some new_seat) (Some ("FLT-" ++ str_of_int drawn)),
          inr ("確認番号 " ++ confirmation ++ " の座席を " ++ new_seat
               ++ " に更新しました。")) /\
     forall ops : list context_op,
       snd (update_seat (apply_ops (on_seat_booking_handoff drawn context) ops)
                        confirmation new_seat)
       = inr ("確認番号 " ++ confirmation ++ " の座席を " ++ new_seat
              ++ " に更新しました。")).
Proof.
  split; [|split].
  - unfold update_seat; simpl.
    destruct (flight_number context); split; intros; try discriminate;
      reflexivity.
  - unfold update_seat; simpl.
    destruct (flight_number context); split; intros; try discriminate;
      reflexivity.
  - intros drawn. split; [reflexivity|]. split; [reflexivity|].
    intros ops.
    pose proof (@apply_ops_keep_flight_set ops
                  (on_seat_booking_handoff drawn context)) as Set'.
    unfold update_seat; simpl.
    destruct (flight_number
                (apply_ops (on_seat_booking_handoff drawn context) ops));
      [reflexivity|]. elim Set'; [discriminate | reflexivity].
Qed.

(** The hook's flight number, for a draw in the range of
    [random.randint(100, 999)], and a later seat update. *)
Example seat_update_after_handoff :
  update_seat (on_seat_booking_handoff 415 empty_context) "ABC123" "12A"
  = (mkContext None (Some "ABC123") (Some "12A") (Some "FLT-415"),
     inr "確認番号 ABC123 の座席を 12A に更新しました。") /\
  update_seat empty_context "ABC123" "12A"
  = (mkContext None (Some "ABC123") (Some "12A") None,
     inl (Exn AssertionError "フライト番号は必須です。" None)) /\
  update_seat
    (apply_ops (on_seat_booking_handoff 415 empty_context)
       [SeatUpdate "ABC123" "12A"; SeatHandoff 901])
    "ABC123" "14C"
  = (mkContext None (Some "ABC123") (Some "14C") (Some "FLT-901"),
     inr "確認番号 ABC123 の座席を 14C に更新しました。").
Proof. repeat split; vm_compute; reflexivity. Qed.

End UpdateSeat.

(** Every agent of the customer service script has an agent to hand off
    to: the triage agent the two specialists, each specialist the triage
    agent. *)
Remark every_agent_can_hand_off (a : CustomerService.Agent) :
  CustomerService.handoffs a <> []%list /\
  (a <> CustomerService.triage_agent ->
   CustomerService.handoffs a = [CustomerService.triage_agent]%list).
Proof. destruct a; split; intros; try discriminate; try reflexivity; now elim H. Qed.

(** ** The handoff input filters *)

Section HandoffFilters.
Import Handoff.

Variables TResponseInputItem RunItem RunContext : Type.

(** C10. The filters change no field but [input_history]:
    [filter_summary_only] keeps [pre_handoff_items], [new_items] and
    [run_context] and replaces a tuple [input_history] by its last three
    elements (a string history stays as it is);
    [filter_remove_sensitive_info] returns its argument unchanged. *)
Theorem handoff_filters_frame
    (data : HandoffInputData TResponseInputItem RunItem RunContext) :
  pre_handoff_items (filter_summary_only data) = pre_handoff_items data /\
  new_items (filter_summary_only data) = new_items data /\
  run_context (filter_summary_only data) = run_context data /\
  input_history (filter_summary_only data) =
    match input_history data with
    | HistoryTuple items =>
        HistoryTuple (skipn (List.length items - 3) items)
    | HistoryStr text => HistoryStr text
    end /\
  filter_remove_sensitive_info data = data.
Proof.
  destruct data as [history pre new ctx]. unfold filter_summary_only,
    filter_remove_sensitive_info; simpl.
  repeat split. destruct history as [text|items]; [reflexivity|].
  f_equal. change (-3)%Z with (- Z.of_nat 3)%Z.
  apply slice_from_negative. lia.
Qed.

End HandoffFilters.

Example filter_summary_only_five_items :
  Handoff.filter_summary_only
    (Handoff.mkHandoffInputData
       (Handoff.HistoryTuple [1; 2; 3; 4; 5]%nat) [true] [false] (Some tt))
  = Handoff.mkHandoffInputData
      (Handoff.HistoryTuple [3; 4; 5]%nat) [true] [false] (Some tt) /\
  Handoff.filter_summary_only
    (Handoff.mkHandoffInputData
       (Handoff.HistoryTuple [1; 2]%nat) [true] [false] (Some tt))
  = Handoff.mkHandoffInputData
      (Handoff.HistoryTuple [1; 2]%nat) [true] [false] (Some tt).
Proof. split; reflexivity. Qed.

(** ** The purchase history tool *)

Section PurchaseHistory.
Import Context.

Lemma check_purchase_history_nonempty (user : UserContext) :
  purchase_history user <> []%list ->
  check_purchase_history user
  = name user ++ "様の最近の購入: "
    ++ Py.join ", " (firstn 5 (purchase_history user)).
Proof.
  intros H. unfold check_purchase_history.
  change 5%Z with (Z.of_nat 5). rewrite slice_to_nonnegative.
  destruct (purchase_history user); [now elim H | reflexivity].
Qed.

(** C5. With more than five purchases [check_purchase_history] lists the
    first five elements of the list, the five oldest of a list that grows
    by appending, and leaves the latest one out; the five most recent are
    the slice [[-5:]], which is what [filter_summary_only] takes (with 3)
    of its history. *)
Example check_purchase_history_lists_oldest_five :
  check_purchase_history Samples.six_purchases
    = "田中太郎様の最近の購入: p1, p2, p3, p4, p5" /\
  Py.str_in "p6" (check_purchase_history Samples.six_purchases) = false /\
  Py.join ", " (Py.slice_from (-5) (purchase_history Samples.six_purchases))
    = "p2, p3, p4, p5, p6".
Proof. repeat split; vm_compute; reflexivity. Qed.

End PurchaseHistory.

(** ** The interactive loop of the customer service script *)

Section MainLoop.
Import Py CustomerService.

Variable run : Runner.

Lemma turn_returns (n : nat) (st : LoopState) (user_input : string)
    (context' : AirlineAgentContext) (r : RunResult) :
  run n (current_agent st)
      (input_items st ++ [Message "user" user_input])%list (context st)
    = (context', inr r) ->
  turn run n st user_input
  = (([EvInput user_input;
       EvRun (current_agent st)
             (input_items st ++ [Message "user" user_input])%list]
      ++ map (fun i => EvPrint (render_item i)) (new_items r))%list,
     mkLoop (last_agent r) (to_input_list r) context',
     None).
Proof. intros H. unfold turn. now rewrite H. Qed.

Lemma turn_raises (n : nat) (st : LoopState) (user_input : string)
    (context' : AirlineAgentContext) (e : exn) :
  run n (current_agent st)
      (input_items st ++ [Message "user" user_input])%list (context st)
    = (context', inl e) ->
  turn run n st user_input
  = ([EvInput user_input;
      EvRun (current_agent st)
            (input_items st ++ [Message "user" user_input])%list],
     mkLoop (current_agent st)
            (input_items st ++ [Message "user" user_input])%list context',
     Some e).
Proof. intros H. unfold turn. now rewrite H. Qed.

(** A turn either raises, leaving the request appended, or returns. *)
Lemma turn_status (n : nat) (st : LoopState) (user_input : string) :
  let '(evs, st', status) := turn run n st user_input in
  match status with
  | Some e =>
      evs = [EvInput user_input; EvRun (current_agent st') (input_items st')]
      /\ input_items st'
         = (input_items st ++ [Message "user" user_input])%list
      /\ current_agent st' = current_agent st
  | None => True
  end.
Proof.
  unfold turn.
  destruct (run n (current_agent st)
              (input_items st ++ [Message "user" user_input])%list
              (context st)) as [context' [e|r]]; simpl; auto.
Qed.

(** The loop over two batches of lines is the loop over the first batch
    followed, when no turn of it raised, by the loop over the second. *)
Lemma main_loop_app (done rest : list string) (n : nat) (st : LoopState) :
  main_loop run n st (done ++ rest)%list
  = match main_loop run n st done with
    | (evs, st', Some e) => (evs, st', Some e)
    | (evs, st', None) =>
        let '(evs', st'', status) :=
          main_loop run (n + List.length done) st' rest in
        ((evs ++ evs')%list, st'', status)
    end.
Proof.
  revert n st. induction done as [|line done IH]; intros n st; simpl.
  - rewrite Nat.add_0_r. now destruct (main_loop run n st rest) as [[? ?] ?].
  - destruct (turn run n st line) as [[evs st'] [e|]]; [reflexivity|].
    rewrite IH.
    destruct (main_loop run (S n) st' done) as [[evs1 st1] [e|]];
      [reflexivity|].
    replace (n + S (List.length done))%nat
      with (S n + List.length done)%nat by lia.
    destruct (main_loop run (S n + List.length done) st1 rest)
      as [[evs2 st2] status].
    now rewrite app_assoc.
Qed.

(** When the loop ends with an exception, it is the run of one line that
    raised it: the turns before it all returned, the request of the
    raising turn is the last element of [input_items], the trace ends
    with that run, and the lines after it were never read. *)
Lemma main_loop_raised (lines : list string) (n : nat) (st : LoopState)
    (evs : list event) (st' : LoopState) (e : exn) :
  main_loop run n st lines = (evs, st', Some e) ->
  exists (done : list string) (line : string) (rest : list string)
         (evs0 : list event) (st0 : LoopState),
    lines = (done ++ line :: rest)%list /\
    main_loop run n st done = (evs0, st0, None) /\
    input_items st'
      = (input_items st0 ++ [Message "user" line])%list /\
    current_agent st' = current_agent st0 /\
    evs = (evs0 ++ [EvInput line;
                    EvRun (current_agent st') (input_items st')])%list /\
    main_loop run n st (done ++ [line])%list = (evs, st', Some e).
Proof.
  revert n st evs st'. induction lines as [|line lines IH];
    intros n st evs st' H; simpl in H; [discriminate|].
  pose proof (turn_status n st line) as T.
  destruct (turn run n st line) as [[evs1 st1] [e1|]] eqn:Turn.
  - injection H as <- <- <-. destruct T as (-> & Items & Agent).
    exists []%list, line, lines, []%list, st. simpl. rewrite Turn.
    repeat split; auto.
  - destruct (main_loop run (S n) st1 lines) as [[evs2 st2] status] eqn:Loop.
    injection H as <- <- ->.
    destruct (IH _ _ _ _ Loop)
      as (done & l & rest & evs0 & st0 & -> & Done & Items & Agent & Evs & Cut).
    exists (line :: done)%list, l, rest, (evs1 ++ evs0)%list, st0.
    simpl. rewrite Turn, Done, Cut. subst evs2.
    repeat split; auto. now rewrite app_assoc.
Qed.

End MainLoop.

(** ** The test loop of the guardrail demo *)

Section GuardrailLoop.
Import Py Guardrail0206.

Variable format_2f : float -> string.
Variable run : Runner.
Variable user_context : UserContext.

Lemma run_inputs_app (evs evs' : list event) :
  run_inputs (evs ++ evs') = (run_inputs evs ++ run_inputs evs')%list.
Proof.
  induction evs as [|[line|text ctx] evs IH]; simpl; auto. now rewrite IH.
Qed.

Lemma reason_lines_no_run (e : exn) : run_inputs (reason_lines e) = []%list.
Proof.
  unfold reason_lines. destruct (guardrail_results e) as [results|]; auto.
  induction results as [|[[[why|] found]|] results IH]; simpl; auto.
Qed.

Lemma issue_lines_no_run (e : exn) : run_inputs (issue_lines e) = []%list.
Proof.
  unfold issue_lines. destruct (guardrail_results e) as [results|]; auto.
  induction results as [|[[why [found|]]|] results IH]; simpl; auto.
Qed.

(** Every iteration makes one run, on the input of its own test case. *)
Lemma run_case_inputs (i : nat) (test_case : TestCase) :
  run_inputs (fst (run_case format_2f run user_context i test_case))
  = [case_input test_case]%list.
Proof.
  unfold run_case.
  destruct (run i (case_input test_case) user_context) as [e|r]; simpl; auto.
  destruct (exc_type e); simpl;
    rewrite ?run_inputs_app, ?reason_lines_no_run, ?issue_lines_no_run;
    reflexivity.
Qed.

(** An iteration leaves the loop only on an exception outside
    [Exception]: a tripwire is handled and the loop goes on. *)
Lemma run_case_status (i : nat) (test_case : TestCase) (e : exn) :
  snd (run_case format_2f run user_context i test_case) = Some e ->
  run i (case_input test_case) user_context = inl e /\
  caught_by_Exception e = false.
Proof.
  unfold run_case, caught_by_Exception.
  destruct (run i (case_input test_case) user_context) as [e'|r]; simpl;
    [|discriminate].
  destruct e' as [c msg results]; simpl.
  destruct c; simpl; intros H; try discriminate;
    injection H as <-; auto.
Qed.

Lemma run_cases_status (cases : list TestCase) (i : nat) (e : exn) :
  snd (run_cases format_2f run user_context i cases) = Some e ->
  caught_by_Exception e = false /\
  exists (j : nat) (text : string), run j text user_context = inl e.
Proof.
  revert i. induction cases as [|test_case cases IH]; intros i; simpl;
    [discriminate|].
  pose proof (run_case_status i test_case) as One.
  destruct (run_case format_2f run user_context i test_case)
    as [evs [e'|]]; simpl in *.
  - intros [= ->]. destruct (One e eq_refl) as [Run Caught].
    split; [exact Caught|]. now exists i, (case_input test_case).
  - specialize (IH (S i)).
    destruct (run_cases format_2f run user_context (S i) cases)
      as [evs' status]; simpl in *. exact IH.
Qed.

Lemma run_cases_inputs (cases : list TestCase) (i : nat) :
  exists k : nat,
    run_inputs (fst (run_cases format_2f run user_context i cases))
      = firstn k (map case_input cases) /\
    (snd (run_cases format_2f run user_context i cases) = None ->
     k = List.length cases).
Proof.
  revert i. induction cases as [|test_case cases IH]; intros i; simpl.
  - exists 0%nat. auto.
  - pose proof (run_case_inputs i test_case) as One.
    destruct (run_case format_2f run user_context i test_case)
      as [evs [e|]]; simpl in *.
    + exists 1%nat. rewrite One. split; [now destruct cases | discriminate].
    + destruct (IH (S i)) as (k & Inputs & All).
      destruct (run_cases format_2f run user_context (S i) cases)
        as [evs' status]; simpl in *.
      exists (S k). rewrite run_inputs_app, One, Inputs. split; auto.
Qed.








End GuardrailLoop.

(** ** Traces of [run_scenario] *)

Lemma printed_app (evs evs' : list Handoff.event) :
  Handoff.printed (evs ++ evs')
  = (Handoff.printed evs ++ Handoff.printed evs')%list.
Proof.
  induction evs as [|[line|agent text ctx turns] evs IH]; simpl; auto.
  now rewrite IH.
Qed.

(** ** What a failed or blocked run leaves behind *)

Section Turns.
Import Py CustomerService.


(** C7 (amended). A turn of the customer service loop appends the request
    before the run.  When the run returns, [input_items] and
    [current_agent] are replaced by the result's [to_input_list()] and
    [last_agent].  When the run raises, the exception leaves the loop with
    [input_items] holding the earlier items plus the request and no
    response, and the lines after it are not read. *)
Theorem turn_appends_request_before_run
    (run : Runner) (n : nat) (st : LoopState) (user_input : string)
    (context' : AirlineAgentContext) (outcome : result RunResult) :
  run n (current_agent st)
      (input_items st ++ [Message "user" user_input])%list (context st)
    = (context', outcome) ->
  match outcome with
  | inr r =>
      snd (fst (turn run n st user_input))
        = mkLoop (last_agent r) (to_input_list r) context' /\
      snd (turn run n st user_input) = None
  | inl e =>
      snd (fst (turn run n st user_input))
        = mkLoop (current_agent st)
                 (input_items st ++ [Message "user" user_input])%list
                 context' /\
      snd (turn run n st user_input) = Some e /\
      forall rest : list string,
        main_loop run n st (user_input :: rest) = turn run n st user_input
  end.
Proof.
  intros H. destruct outcome as [e|r].
  - rewrite (turn_raises run n st user_input H). repeat split.
    intros rest. simpl. now rewrite (turn_raises run n st user_input H).
  - rewrite (turn_returns run n st user_input H). split; reflexivity.
Qed.

(** C6 (amended). Nothing turns a failed triage run into a default
    classification.  [run_scenario] catches an exception of class
    [Exception], prints its type name and message and returns [False]; an
    exception outside [Exception] comes out of it.  The customer service
    loop catches nothing: the exception of the run leaves [main]. *)
Theorem triage_failure_is_reported_not_defaulted
    (scenario_run : Handoff.Runner) (scenario_name customer_query : string)
    (customer : Handoff.CustomerContext) (e : exn)
    (run : Runner) (n : nat) (st : LoopState) (user_input : string)
    (context' : AirlineAgentContext) (rest : list string) :
  scenario_run Handoff.triage_agent customer_query customer 10%Z = inl e ->
  run n (current_agent st)
      (input_items st ++ [Message "user" user_input])%list (context st)
    = (context', inl e) ->
  snd (Handoff.run_scenario scenario_run scenario_name customer_query customer)
    = (if caught_by_Exception e then inr false else inl e) /\
  (caught_by_Exception e = true ->
   exists before : list string,
     Handoff.printed
       (fst (Handoff.run_scenario scenario_run scenario_name
               customer_query customer))
     = List.app before
        [Handoff.nl ++ "エラーが発生しました: " ++ class_name (exc_type e);
         "詳細: " ++ exc_str e]) /\
  snd (main_loop run n st (user_input :: rest)) = Some e.
Proof.
  intros Scenario Turn. unfold Handoff.run_scenario. rewrite Scenario.
  cbv zeta. destruct (caught_by_Exception e); repeat split.
  - intros _. cbn [fst]. rewrite printed_app. eexists. reflexivity.
  - simpl. now rewrite (turn_raises run n st user_input Turn).
  - discriminate.
  - simpl. now rewrite (turn_raises run n st user_input Turn).
Qed.

End Turns.

(** ** The bound and the error report of [run_scenario] *)

Section RunScenario.
Import Py Handoff.

(** C3 (amended). [run_scenario] keeps no escalation count.  It makes
    exactly one [Runner.run] call, on the triage agent with
    [max_turns=10], and enforcing that bound is the SDK's.  When the call
    raises an exception of class [Exception] (the SDK's [MaxTurnsExceeded]
    included) [run_scenario] makes no further call, prints the exception's
    type name and message and returns [False]; it returns [True] exactly
    when the call returned.  An exception outside [Exception] comes out
    of [run_scenario]. *)
Theorem run_scenario_makes_one_bounded_run
    (run : Runner) (scenario_name customer_query : string)
    (customer : CustomerContext) :
  filter is_run
    (fst (run_scenario run scenario_name customer_query customer))
    = [EvRun triage_agent customer_query customer 10] /\
  (snd (run_scenario run scenario_name customer_query customer) = inr true
   <-> returned (run triage_agent customer_query customer 10%Z) = true) /\
  (forall e : exn,
     run triage_agent customer_query customer 10%Z = inl e ->
     caught_by_Exception e = true ->
     snd (run_scenario run scenario_name customer_query customer)
       = inr false /\
     exists before : list string,
       printed (fst (run_scenario run scenario_name customer_query customer))
       = List.app before
           [nl ++ "エラーが発生しました: " ++ class_name (exc_type e);
            "詳細: " ++ exc_str e]) /\
  (forall e : exn,
     run triage_agent customer_query customer 10%Z = inl e ->
     caught_by_Exception e = false ->
     snd (run_scenario run scenario_name customer_query customer) = inl e) /\
  (forall e : exn,
     exc_type e = MaxTurnsExceeded ->
     caught_by_Exception e = true /\
     class_name (exc_type e) = "MaxTurnsExceeded").
Proof.
  unfold run_scenario. cbv zeta.
  destruct (run triage_agent customer_query customer 10%Z) as [e|r].
  - destruct (caught_by_Exception e) eqn:Caught; cbn [fst snd].
    + split; [reflexivity|]. split; [split; discriminate|].
      split; [|split].
      * intros e' [= <-] _. split; [reflexivity|].
        rewrite printed_app. eexists. reflexivity.
      * intros e' [= <-] No. rewrite Caught in No. discriminate.
      * intros e' Class. unfold caught_by_Exception. now rewrite Class.
    + split; [reflexivity|]. split; [split; discriminate|].
      split; [|split].
      * intros e' [= <-] Yes. rewrite Caught in Yes. discriminate.
      * now intros e' [= <-] _.
      * intros e' Class. unfold caught_by_Exception. now rewrite Class.
  - cbn [fst snd returned]. split; [now destruct (agent_name r)|].
    split; [split; reflexivity|]. split; [discriminate|].
    split; [discriminate|].
    intros e' Class. unfold caught_by_Exception. now rewrite Class.
Qed.

End RunScenario.

(** ** The guardrails' verdicts *)

Section Guardrails.
Import Py Sdk.

Variable TResponseInputItem : Type.
Variable str_item : TResponseInputItem -> string.
Variable format_2f : float -> string.
Variable Context : Type.

Lemma any_tripped_single (v : option bool) :
  any_tripped [v] = true <-> v = Some true.
Proof.
  unfold any_tripped. simpl. rewrite orb_false_r.
  destruct v as [[|]|]; split; intros H; try discriminate; reflexivity.
Qed.

Lemma Some_true_iff (b : bool) : Some b = Some true <-> b = true.
Proof. split; [now intros [= ->] | now intros ->]. Qed.

(** C1 (amended). What a guardrail returns when its checker raises is
    fixed per script, not per direction.  For an exception of class
    [Exception], both guardrails of 0206 (input and output) return
    [tripwire_triggered=False], and both guardrails of 0401 (input and
    output) return [tripwire_triggered=True], each with
    [output_info={"error": str(e)}]; an exception outside [Exception]
    comes out of all four. *)
Theorem guardrail_failure_verdict_is_per_script
    (e : exn)
    (run1 : string -> Guardrail0206.UserContext ->
            result Guardrail0206.InappropriateContentOutput)
    (ctx1 : Guardrail0206.UserContext)
    (input1 : string + list TResponseInputItem)
    (run2 : string -> Guardrail0206.UserContext ->
            result Guardrail0206.ProfessionalityOutput)
    (ctx2 : Guardrail0206.UserContext)
    (output2 : Guardrail0206.CustomerResponse)
    (run3 : string + list TResponseInputItem -> Context ->
            result Guardrail0401.MathHomeworkDetection)
    (ctx3 : Context) (input3 : string + list TResponseInputItem)
    (run4 : string -> Context ->
            result Guardrail0401.InappropriateContentDetection)
    (ctx4 : Context) (output4 : Guardrail0401.CustomerSupportResponse) :
  run1 (Guardrail0206.text_input str_item input1) ctx1 = inl e ->
  run2 (Guardrail0206.response output2) ctx2 = inl e ->
  run3 input3 ctx3 = inl e ->
  run4 (Guardrail0401.response output4) ctx4 = inl e ->
  snd (Guardrail0206.inappropriate_content_guardrail
         str_item format_2f run1 ctx1 input1)
    = (if caught_by_Exception e
       then inr (mkOutput (ErrorInfo (exc_str e)) false) else inl e) /\
  snd (Guardrail0206.professionality_guardrail run2 ctx2 output2)
    = (if caught_by_Exception e
       then inr (mkOutput (ErrorInfo (exc_str e)) false) else inl e) /\
  snd (Guardrail0401.math_homework_input_guardrail
         format_2f run3 ctx3 input3)
    = (if caught_by_Exception e
       then inr (mkOutput (ErrorInfo (exc_str e)) true) else inl e) /\
  snd (Guardrail0401.inappropriate_content_output_guardrail
         run4 ctx4 output4)
    = (if caught_by_Exception e
       then inr (mkOutput (ErrorInfo (exc_str e)) true) else inl e).
Proof.
  intros H1 H2 H3 H4.
  unfold Guardrail0206.inappropriate_content_guardrail,
    Guardrail0206.professionality_guardrail,
    Guardrail0401.math_homework_input_guardrail,
    Guardrail0401.inappropriate_content_output_guardrail.
  cbv zeta. rewrite H1, H2, H3, H4.
  destruct (caught_by_Exception e); repeat split.
Qed.

(** C4 (amended). When its checker returns, each guardrail trips on the
    checker's own flag together with a test against a literal written in
    the script: in 0206 the input guardrail on [is_inappropriate] and
    [confidence_score > 0.7] (strictly) and the output guardrail on
    [not is_professional] and [severity == "high"]; in 0401 the input
    guardrail on [is_math_homework] and [confidence_score >= 0.7] and the
    output guardrail on [is_inappropriate] and [severity] being
    ["medium"] or ["high"].  Each agent lists exactly one guardrail per
    direction, so the combination over the guardrails applied in a
    direction (blocked when any of them trips) is that one guardrail's
    verdict. *)
Theorem guardrail_tripwire_is_flag_and_literal_test
    (out1 : Guardrail0206.InappropriateContentOutput)
    (run1 : string -> Guardrail0206.UserContext ->
            result Guardrail0206.InappropriateContentOutput)
    (ctx1 : Guardrail0206.UserContext)
    (input1 : string + list TResponseInputItem)
    (out2 : Guardrail0206.ProfessionalityOutput)
    (run2 : string -> Guardrail0206.UserContext ->
            result Guardrail0206.ProfessionalityOutput)
    (ctx2 : Guardrail0206.UserContext)
    (output2 : Guardrail0206.CustomerResponse)
    (out3 : Guardrail0401.MathHomeworkDetection)
    (run3 : string + list TResponseInputItem -> Context ->
            result Guardrail0401.MathHomeworkDetection)
    (ctx3 : Context) (input3 : string + list TResponseInputItem)
    (out4 : Guardrail0401.InappropriateContentDetection)
    (run4 : string -> Context ->
            result Guardrail0401.InappropriateContentDetection)
    (ctx4 : Context) (output4 : Guardrail0401.CustomerSupportResponse) :
  run1 (Guardrail0206.text_input str_item input1) ctx1 = inr out1 ->
  run2 (Guardrail0206.response output2) ctx2 = inr out2 ->
  run3 input3 ctx3 = inr out3 ->
  run4 (Guardrail0401.response output4) ctx4 = inr out4 ->
  (verdict (Guardrail0206.inappropriate_content_guardrail
              str_item format_2f run1 ctx1 input1) = Some true
   <-> Guardrail0206.is_inappropriate out1 = true /\
       PrimFloat.ltb literal_0_7 (Guardrail0206.confidence_score out1)
         = true) /\
  (verdict (Guardrail0206.professionality_guardrail run2 ctx2 output2)
     = Some true
   <-> Guardrail0206.is_professional out2 = false /\
       Guardrail0206.severity out2 = "high") /\
  (verdict (Guardrail0401.math_homework_input_guardrail
              format_2f run3 ctx3 input3) = Some true
   <-> Guardrail0401.is_math_homework out3 = true /\
       PrimFloat.leb literal_0_7 (Guardrail0401.confidence_score out3)
         = true) /\
  (verdict (Guardrail0401.inappropriate_content_output_guardrail
              run4 ctx4 output4) = Some true
   <-> Guardrail0401.is_inappropriate out4 = true /\
       (Guardrail0401.severity out4 = "medium" \/
        Guardrail0401.severity out4 = "high")) /\
  (any_tripped
     (map (fun guardrail => verdict (guardrail run1 ctx1 input1))
          (Guardrail0206.input_guardrails str_item format_2f)) = true
   <-> Guardrail0206.is_inappropriate out1 = true /\
       PrimFloat.ltb literal_0_7 (Guardrail0206.confidence_score out1)
         = true) /\
  (any_tripped
     (map (fun guardrail => verdict (guardrail run2 ctx2 output2))
          Guardrail0206.output_guardrails) = true
   <-> Guardrail0206.is_professional out2 = false /\
       Guardrail0206.severity out2 = "high") /\
  (any_tripped
     (map (fun guardrail => verdict (guardrail run3 ctx3 input3))
          (@Guardrail0401.input_guardrails TResponseInputItem Context
             format_2f)) = true
   <-> Guardrail0401.is_math_homework out3 = true /\
       PrimFloat.leb literal_0_7 (Guardrail0401.confidence_score out3)
         = true) /\
  (any_tripped
     (map (fun guardrail => verdict (guardrail run4 ctx4 output4))
          (@Guardrail0401.output_guardrails Context)) = true
   <-> Guardrail0401.is_inappropriate out4 = true /\
       (Guardrail0401.severity out4 = "medium" \/
        Guardrail0401.severity out4 = "high")).
Proof.
  intros H1 H2 H3 H4.
  unfold Guardrail0206.input_guardrails, Guardrail0206.output_guardrails,
    Guardrail0401.input_guardrails, Guardrail0401.output_guardrails.
  cbn [map]. rewrite !any_tripped_single.
  unfold verdict, Guardrail0206.inappropriate_content_guardrail,
    Guardrail0206.professionality_guardrail,
    Guardrail0401.math_homework_input_guardrail,
    Guardrail0401.inappropriate_content_output_guardrail.
  cbv zeta. rewrite H1, H2, H3, H4.
  cbn [snd tripwire_triggered existsb].
  rewrite !Some_true_iff, !andb_true_iff, negb_true_iff, !orb_true_iff,
    !String.eqb_eq.
  intuition discriminate.
Qed.

End Guardrails.

Section Counterexamples.
Import Py Sdk Samples.

(** C1, as stated, fails: with the checker down, the output guardrail of
    0206 does not block and the input guardrail of 0401 blocks. *)
Example guardrail_failure_counterexample :
  verdict (Guardrail0206.professionality_guardrail
             (fun _ _ => inl checker_down) tanaka reply0206) = Some false /\
  verdict (Guardrail0401.math_homework_input_guardrail
             (TResponseInputItem := string) format_2f
             (fun _ _ => inl checker_down) tt (inl "2x + 3 = 11"))
    = Some true.
Proof. split; reflexivity. Qed.

(** C4, as stated, fails: a confidence equal to the threshold 0.7 with
    the flag set does not trip the input guardrail of 0206 and trips the
    one of 0401, and in 0401 a confidence of 1.0 without the flag does not
    trip. *)
Example guardrail_threshold_counterexample :
  PrimFloat.leb literal_0_7 literal_0_7 = true /\
  verdict (Guardrail0206.inappropriate_content_guardrail
             (fun s : string => s) format_2f
             (fun _ _ =>
                inr (Guardrail0206.mkInappropriate true "業務外" literal_0_7))
             tanaka (inl "数学の宿題")) = Some false /\
  verdict (Guardrail0401.math_homework_input_guardrail
             (TResponseInputItem := string) format_2f
             (fun _ _ => inr (Guardrail0401.mkMath true "宿題" literal_0_7))
             tt (inl "数学の宿題")) = Some true /\
  PrimFloat.leb literal_0_7 1 = true /\
  verdict (Guardrail0401.math_homework_input_guardrail
             (TResponseInputItem := string) format_2f
             (fun _ _ => inr (Guardrail0401.mkMath false "質問" 1))
             tt (inl "返品方法")) = Some false.
Proof. repeat split; vm_compute; reflexivity. Qed.

(** C7, as stated, fails: a turn cancelled during its run leaves the
    request appended, with no response. *)
Example cancelled_turn_counterexample :
  let '(_, after, status) :=
    CustomerService.turn (always_raise cancelled) 0
                         CustomerService.initial_state "席を変更したい" in
  status = Some cancelled /\
  CustomerService.input_items CustomerService.initial_state = []%list /\
  CustomerService.input_items after
    = [CustomerService.Message "user" "席を変更したい"]%list.
Proof. vm_compute. repeat split. Qed.

(** C6, as stated, fails: with the backend down, the customer service
    loop raises, and [run_scenario] returns [False] after an error
    report in which no [classifier_unavailable] rationale appears. *)
Example classifier_failure_counterexample :
  snd (CustomerService.main (always_raise checker_down) ["荷物について"])
    = Some checker_down /\
  snd (Handoff.run_scenario (scenario_raise checker_down)
         "緊急エスカレーション" escalation_query yamada) = inr false /\
  forallb (fun line => negb (str_in "classifier_unavailable" line))
    (Handoff.printed
       (fst (Handoff.run_scenario (scenario_raise checker_down)
               "緊急エスカレーション" escalation_query yamada))) = true.
Proof. repeat split; vm_compute; reflexivity. Qed.

(** C3, as stated, fails: the bound [run_scenario] configures is 10
    turns, not 1 escalation, and when the SDK reports it exceeded the
    scenario ends with [False] and the exception's own name and message,
    not with the reason [escalation_limit_exceeded]. *)
Example run_scenario_limit_counterexample :
  let '(evs, outcome) :=
    Handoff.run_scenario (scenario_raise turn_limit)
      "緊急エスカレーション" escalation_query yamada in
  filter Handoff.is_run evs
    = [Handoff.EvRun Handoff.triage_agent escalation_query yamada 10]%list /\
  outcome = inr false /\
  forallb (fun line => negb (str_in "escalation_limit_exceeded" line))
    (Handoff.printed evs) = true /\
  In (Handoff.nl ++ "エラーが発生しました: MaxTurnsExceeded")
     (Handoff.printed evs).
Proof. vm_compute. repeat split. do 6 right. left. reflexivity. Qed.

End Counterexamples.

Section Witnesses.
Import Py Sdk Samples.

(** The four guardrails with the checker's backend down. *)
Lemma guardrail_failure_witness :
  snd (Guardrail0206.inappropriate_content_guardrail
         (fun s : string => s) format_2f
         (fun _ _ => inl checker_down) tanaka (inr ["返金"; "ポリシー"]%list))
    = inr (mkOutput (ErrorInfo "Connection error.") false) /\
  snd (Guardrail0206.professionality_guardrail
         (fun _ _ => inl checker_down) tanaka reply0206)
    = inr (mkOutput (ErrorInfo "Connection error.") false) /\
  snd (Guardrail0401.math_homework_input_guardrail
         (TResponseInputItem := string) format_2f
         (fun _ _ => inl checker_down) tt (inl "2x + 3 = 11"))
    = inr (mkOutput (ErrorInfo "Connection error.") true) /\
  snd (Guardrail0401.inappropriate_content_output_guardrail
         (fun _ _ => inl checker_down) tt reply0401)
    = inr (mkOutput (ErrorInfo "Connection error.") true).
Proof.
  exact (@guardrail_failure_verdict_is_per_script
           string (fun s => s) format_2f unit checker_down
           (fun _ _ => inl checker_down) tanaka (inr ["返金"; "ポリシー"]%list)
           (fun _ _ => inl checker_down) tanaka reply0206
           (fun _ _ => inl checker_down) tt (inl "2x + 3 = 11")
           (fun _ _ => inl checker_down) tt reply0401
           eq_refl eq_refl eq_refl eq_refl).
Defined.

(** The four guardrails with a checker that flags its input at the highest
    confidence and severity. *)
Lemma guardrail_tripwire_witness :
  verdict (Guardrail0206.inappropriate_content_guardrail
             (fun s : string => s) format_2f
             (fun _ _ => inr (Guardrail0206.mkInappropriate true "侮辱" 1))
             tanaka (inl "おい、サポート！速く答えろ！")) = Some true /\
  verdict (Guardrail0206.professionality_guardrail
             (fun _ _ =>
                inr (Guardrail0206.mkProfessionality false ["乱暴"] "high"))
             tanaka reply0206) = Some true /\
  verdict (Guardrail0401.math_homework_input_guardrail
             (TResponseInputItem := string) format_2f
             (fun _ _ => inr (Guardrail0401.mkMath true "方程式" 1))
             tt (inl "2x + 3 = 11")) = Some true /\
  verdict (Guardrail0401.inappropriate_content_output_guardrail
             (fun _ _ =>
                inr (Guardrail0401.mkInappropriate true "侮辱" "medium"))
             tt reply0401) = Some true.
Proof.
  destruct (@guardrail_tripwire_is_flag_and_literal_test
              string (fun s => s) format_2f unit
              (Guardrail0206.mkInappropriate true "侮辱" 1)
              (fun _ _ => inr (Guardrail0206.mkInappropriate true "侮辱" 1))
              tanaka (inl "おい、サポート！速く答えろ！")
              (Guardrail0206.mkProfessionality false ["乱暴"] "high")
              (fun _ _ =>
                 inr (Guardrail0206.mkProfessionality false ["乱暴"] "high"))
              tanaka reply0206
              (Guardrail0401.mkMath true "方程式" 1)
              (fun _ _ => inr (Guardrail0401.mkMath true "方程式" 1))
              tt (inl "2x + 3 = 11")
              (Guardrail0401.mkInappropriate true "侮辱" "medium")
              (fun _ _ =>
                 inr (Guardrail0401.mkInappropriate true "侮辱" "medium"))
              tt reply0401
              eq_refl eq_refl eq_refl eq_refl)
    as (V1 & V2 & V3 & V4 & _).
  split; [|split; [|split]].
  - apply V1. split; reflexivity.
  - apply V2. split; reflexivity.
  - apply V3. split; reflexivity.
  - apply V4. split; [reflexivity | left; reflexivity].
Defined.


(** A first turn cancelled during its run. *)
Lemma turn_append_witness :
  snd (fst (CustomerService.turn (always_raise cancelled) 0
              CustomerService.initial_state "席を変更したい"))
    = CustomerService.mkLoop CustomerService.triage_agent
        [CustomerService.Message "user" "席を変更したい"]
        CustomerService.empty_context /\
  snd (CustomerService.turn (always_raise cancelled) 0
         CustomerService.initial_state "席を変更したい") = Some cancelled /\
  forall rest : list string,
    CustomerService.main_loop (always_raise cancelled) 0
      CustomerService.initial_state ("席を変更したい" :: rest)
    = CustomerService.turn (always_raise cancelled) 0
        CustomerService.initial_state "席を変更したい".
Proof.
  exact (@turn_appends_request_before_run
           (always_raise cancelled) 0 CustomerService.initial_state
           "席を変更したい" CustomerService.empty_context (inl cancelled)
           eq_refl).
Defined.

(** The triage run fails with the backend down, in the scenario script and
    in the customer service loop. *)
Lemma triage_failure_witness :
  snd (Handoff.run_scenario (scenario_raise checker_down)
         "緊急エスカレーション" escalation_query yamada) = inr false /\
  snd (CustomerService.main_loop (always_raise checker_down) 0
         CustomerService.initial_state ["荷物について"; "席について"])
    = Some checker_down.
Proof.
  destruct (@triage_failure_is_reported_not_defaulted
              (scenario_raise checker_down) "緊急エスカレーション"
              escalation_query yamada checker_down
              (always_raise checker_down) 0 CustomerService.initial_state
              "荷物について" CustomerService.empty_context ["席について"]
              eq_refl eq_refl) as (Returned & _ & Raised).
  split; [exact Returned | exact Raised].
Defined.

(** The escalation scenario when the SDK reports the turn limit exceeded. *)
Lemma run_scenario_limit_witness :
  snd (Handoff.run_scenario (scenario_raise turn_limit)
         "緊急エスカレーション" escalation_query yamada) = inr false /\
  exists before : list string,
    Handoff.printed
      (fst (Handoff.run_scenario (scenario_raise turn_limit)
              "緊急エスカレーション" escalation_query yamada))
    = List.app before
        [Handoff.nl ++ "エラーが発生しました: MaxTurnsExceeded";
         "詳細: Max turns (10) exceeded"].
Proof.
  exact (proj1 (proj2 (proj2 (@run_scenario_makes_one_bounded_run
                                (scenario_raise turn_limit)
                                "緊急エスカレーション" escalation_query yamada)))
               turn_limit eq_refl eq_refl).
Defined.

End Witnesses.

(* ================================================================= *)
(** * Further properties of the scripts *)

(** ** Strings *)

Lemma string_app_assoc (a b c : string) : (a ++ b) ++ c = a ++ b ++ c.
Proof. induction a as [|x a IH]; simpl; [reflexivity | now rewrite IH]. Qed.

Lemma Substring_in_context (needle s before after : string) :
  Substring needle s -> Substring needle (before ++ s ++ after).
Proof.
  intros (x & y & ->). exists (before ++ x), (y ++ after).
  now rewrite !string_app_assoc.
Qed.

Lemma Substring_after (needle s before : string) :
  Substring needle s -> Substring needle (before ++ s).
Proof.
  intros (x & y & ->). exists (before ++ x), y. now rewrite !string_app_assoc.
Qed.

Lemma Substring_self (s : string) : Substring s s.
Proof.
  exists "", "". simpl. induction s as [|c s IH]; simpl; [reflexivity|].
  now rewrite <- IH.
Qed.

Lemma Substring_of_joined (sep piece : string) (parts : list string) :
  In piece parts -> Substring piece (Py.join sep parts).
Proof.
  induction parts as [|p parts IH]; intros H; [now elim H|].
  destruct parts as [|q parts].
  - destruct H as [->|[]]. apply Substring_self.
  - change (Py.join sep (p :: q :: parts))
      with (p ++ sep ++ Py.join sep (q :: parts)).
    destruct H as [->|H].
    + exists "", (sep ++ Py.join sep (q :: parts)). reflexivity.
    + apply Substring_after, Substring_after, IH, H.
Qed.

Lemma str_of_int_injective (a b : Z) :
  Py.str_of_int a = Py.str_of_int b -> a = b.
Proof.
  unfold Py.str_of_int. intros H.
  assert (Proper : forall z : Z,
             NilZero.int_of_string (NilZero.string_of_int (Z.to_int z))
             = Some (Z.to_int z)).
  { intros z. apply NilZero.isi; destruct z; simpl; try discriminate;
      intros [= E]; now apply (DecimalPos.Unsigned.to_uint_nonnil p). }
  apply (f_equal NilZero.int_of_string) in H. rewrite !Proper in H.
  injection H as H. apply (f_equal Z.of_int) in H.
  now rewrite !DecimalZ.of_to in H.
Qed.

(** ** The seat tool and the hook, over sequences of calls *)

Section SeatOperations.
Import Py CustomerService.

(** X1. Over any sequence of seat updates and handoffs on a context, the
    last write wins: [confirmation_number] and [seat_number] are those of
    the last [update_seat] call (also of one whose assertion failed),
    [flight_number] is the one of the last handoff, [passenger_name] is
    never written, and a field no call wrote keeps its value. *)
Theorem seat_operations_last_write_wins (context : AirlineAgentContext)
    (ops : list context_op) :
  passenger_name (apply_ops context ops) = passenger_name context /\
  confirmation_number (apply_ops context ops)
    = match last_seat_update ops with
      | Some (confirmation, _) => Some confirmation
      | None => confirmation_number context
      end /\
  seat_number (apply_ops context ops)
    = match last_seat_update ops with
      | Some (_, new_seat) => Some new_seat
      | None => seat_number context
      end /\
  flight_number (apply_ops context ops)
    = match last_handoff ops with
      | Some drawn => Some ("FLT-" ++ str_of_int drawn)
      | None => flight_number context
      end.
Proof.
  unfold apply_ops. revert context.
  induction ops as [|[confirmation new_seat|drawn] ops IH]; intros context;
    simpl.
  - auto.
  - destruct (IH (fst (update_seat context confirmation new_seat)))
      as (Name & Confirmation & Seat & Flight).
    rewrite Name, Confirmation, Seat, Flight.
    destruct (last_seat_update ops) as [[c s]|]; destruct (last_handoff ops);
      unfold update_seat; simpl; destruct (flight_number context); auto.
  - destruct (IH (on_seat_booking_handoff drawn context))
      as (Name & Confirmation & Seat & Flight).
    rewrite Name, Confirmation, Seat, Flight.
    destruct (last_seat_update ops) as [[c s]|]; destruct (last_handoff ops);
      auto.
Qed.

Lemma three_digit_flights_checked :
  forallb (fun n : nat =>
             String.eqb ("FLT-" ++ str_of_int (Z.of_nat n + 100))
                        (three_digit_flight (Z.of_nat n + 100)))
          (seq 0 900) = true.
Proof. vm_compute. reflexivity. Qed.

(** X2. For a number drawn in the range of [random.randint(100, 999)] the
    hook sets the flight number to [FLT-] followed by the three decimal
    digits of the number, seven characters in all; and two draws give the
    same flight number only when they are the same number. *)
Theorem handoff_flight_number_format (context : AirlineAgentContext)
    (drawn : Z) :
  (100 <= drawn <= 999)%Z ->
  flight_number (on_seat_booking_handoff drawn context)
    = Some (three_digit_flight drawn) /\
  String.length (three_digit_flight drawn) = 7%nat /\
  forall (other : Z) (context' : AirlineAgentContext),
    flight_number (on_seat_booking_handoff other context')
      = flight_number (on_seat_booking_handoff drawn context) ->
    other = drawn.
Proof.
  intros Range. split; [|split].
  - pose proof three_digit_flights_checked as Checked.
    rewrite forallb_forall in Checked.
    specialize (Checked (Z.to_nat (drawn - 100))).
    replace (Z.of_nat (Z.to_nat (drawn - 100)) + 100)%Z with drawn
      in Checked by lia.
    unfold on_seat_booking_handoff; simpl. f_equal.
    apply String.eqb_eq, Checked, in_seq. lia.
  - reflexivity.
  - intros other context'. unfold on_seat_booking_handoff; simpl.
    intros [= H]. now apply str_of_int_injective.
Qed.

End SeatOperations.

(** ** The customer service loop over many lines *)

Section Conversation.
Import Py CustomerService.

Variable run : Runner.

Lemma runs_of_app (evs evs' : list event) :
  runs_of (evs ++ evs') = (runs_of evs ++ runs_of evs')%list.
Proof.
  induction evs as [|[line|agent items|line] evs IH]; simpl; auto.
  now rewrite IH.
Qed.

Lemma inputs_of_app (evs evs' : list event) :
  inputs_of (evs ++ evs') = (inputs_of evs ++ inputs_of evs')%list.
Proof.
  induction evs as [|[line|agent items|line] evs IH]; simpl; auto.
  now rewrite IH.
Qed.

Lemma printed_items_no_run_no_input (items : list RunItem) :
  runs_of (map (fun i => EvPrint (render_item i)) items) = []%list /\
  inputs_of (map (fun i => EvPrint (render_item i)) items) = []%list.
Proof. induction items as [|i items [IH IH']]; simpl; auto. Qed.

(** What one turn reads and runs. *)
Lemma turn_reads_and_runs (n : nat) (st : LoopState) (line : string) :
  runs_of (fst (fst (turn run n st line)))
    = [(input_items st ++ [Message "user" line])%list] /\
  inputs_of (fst (fst (turn run n st line))) = [line]%list.
Proof.
  unfold turn.
  destruct (run n (current_agent st)
              (input_items st ++ [Message "user" line])%list (context st))
    as [context' [e|r]]; simpl; auto.
  destruct (printed_items_no_run_no_input (new_items r)) as [-> ->]. auto.
Qed.

(** X3. The loop can be resumed: when the loop over a first batch of lines
    ends with every run returned, the loop over that batch followed by
    more lines does what the loop over the further lines does from the
    state reached, the calls numbered on; and when a run of the first
    batch raised, the further lines change nothing. *)
Theorem main_loop_resumes (done rest : list string) (n : nat)
    (st st' : LoopState) (evs : list event) (status : option exn) :
  main_loop run n st done = (evs, st', status) ->
  main_loop run n st (done ++ rest)%list
  = match status with
    | Some e => (evs, st', Some e)
    | None =>
        ((evs ++ fst (fst (main_loop run (n + List.length done) st' rest)))%list,
         snd (fst (main_loop run (n + List.length done) st' rest)),
         snd (main_loop run (n + List.length done) st' rest))
    end.
Proof.
  intros H. rewrite main_loop_app, H. destruct status as [e|]; [reflexivity|].
  now destruct (main_loop run (n + List.length done) st' rest) as [[? ?] ?].
Qed.

(** X4. The loop makes exactly one run for every line it reads, in order,
    and gives it a list of items that ends with that line as the user's
    message; the lines read are a prefix of the lines typed, and all of
    them when no run raised. *)
Theorem main_loop_one_run_per_line (lines : list string) (n : nat)
    (st : LoopState) :
  Forall2 ends_with_request
    (runs_of (fst (fst (main_loop run n st lines))))
    (inputs_of (fst (fst (main_loop run n st lines)))) /\
  (exists k : nat,
     inputs_of (fst (fst (main_loop run n st lines))) = firstn k lines) /\
  (snd (main_loop run n st lines) = None ->
   inputs_of (fst (fst (main_loop run n st lines))) = lines).
Proof.
  revert n st. induction lines as [|line lines IH]; intros n st; simpl.
  - repeat split; [constructor | now exists 0%nat].
  - destruct (turn_reads_and_runs n st line) as [Runs Inputs].
    destruct (turn run n st line) as [[evs st'] [e|]]; simpl in *.
    + rewrite Runs, Inputs. repeat split.
      * constructor; [|constructor]. now exists (input_items st).
      * now exists 1%nat; destruct lines.
      * discriminate.
    + destruct (IH (S n) st') as (Each & [k Prefix] & All).
      destruct (main_loop run (S n) st' lines) as [[evs' st''] status];
        simpl in *.
      rewrite runs_of_app, inputs_of_app, Runs, Inputs. repeat split.
      * constructor; [now exists (input_items st) | exact Each].
      * exists (S k). simpl. now rewrite Prefix.
      * intros H. simpl. now rewrite (All H).
Qed.

End Conversation.

(** ** The FAQ tool on longer questions *)

Section FaqContext.
Import CustomerService.

(** X5. The FAQ tool's keyword tests survive added context.  A question
    that gets the baggage answer still gets it with any text put before
    and after it; and when a question gets the fallback answer, so does
    every part of it. *)
Theorem faq_lookup_tool_in_context (question before after : string) :
  (faq_lookup_tool question = BAGGAGE_ANSWER ->
   faq_lookup_tool (before ++ question ++ after) = BAGGAGE_ANSWER) /\
  (faq_lookup_tool (before ++ question ++ after) = FALLBACK_ANSWER ->
   faq_lookup_tool question = FALLBACK_ANSWER).
Proof.
  destruct answers_distinct as (BS & BW & BF & SW & SF & WF).
  assert (Keep : forall a b : string,
             Py.str_in a question || Py.str_in b question = true ->
             Py.str_in a (before ++ question ++ after)
             || Py.str_in b (before ++ question ++ after) = true).
  { intros a b H. apply either_keyword. apply either_keyword in H.
    destruct H as [H|H]; [left|right]; now apply Substring_in_context. }
  unfold faq_lookup_tool. split.
  - destruct (Py.str_in "バック" question || Py.str_in "荷物" question) eqn:Bag.
    + intros _. now rewrite (Keep _ _ Bag).
    + destruct (Py.str_in "席" question || Py.str_in "飛行機" question);
        [congruence|].
      destruct (Py.str_in "WiFi" question || Py.str_in "Wi-Fi" question);
        congruence.
  - destruct (Py.str_in "バック" question || Py.str_in "荷物" question) eqn:Bag.
    { rewrite (Keep _ _ Bag). congruence. }
    destruct (Py.str_in "バック" (before ++ question ++ after)
              || Py.str_in "荷物" (before ++ question ++ after));
      [congruence|].
    destruct (Py.str_in "席" question || Py.str_in "飛行機" question) eqn:Seat.
    { rewrite (Keep _ _ Seat). congruence. }
    destruct (Py.str_in "席" (before ++ question ++ after)
              || Py.str_in "飛行機" (before ++ question ++ after));
      [congruence|].
    destruct (Py.str_in "WiFi" question || Py.str_in "Wi-Fi" question) eqn:Wifi.
    { rewrite (Keep _ _ Wifi). congruence. }
    reflexivity.
Qed.

End FaqContext.

(** ** The handoff filters, composed *)

Section FilterComposition.
Import Handoff.

Variables TResponseInputItem RunItem RunContext : Type.

Lemma slice_last_three_twice (A : Type) (l : list A) :
  Py.slice_from (-3) (Py.slice_from (-3) l) = Py.slice_from (-3) l.
Proof.
  change (-3)%Z with (- Z.of_nat 3)%Z. rewrite !slice_from_negative by lia.
  rewrite length_skipn.
  replace (List.length l - (List.length l - 3) - 3)%nat with 0%nat by lia.
  reflexivity.
Qed.

(** X6. [filter_summary_only] is idempotent, it leaves a tuple history of
    at most three items, and it commutes with
    [filter_remove_sensitive_info]. *)
Theorem filter_summary_only_idempotent
    (data : HandoffInputData TResponseInputItem RunItem RunContext) :
  filter_summary_only (filter_summary_only data) = filter_summary_only data /\
  filter_summary_only (filter_remove_sensitive_info data)
    = filter_remove_sensitive_info (filter_summary_only data) /\
  match input_history (filter_summary_only data) with
  | HistoryTuple items => (List.length items <= 3)%nat
  | HistoryStr _ => True
  end.
Proof.
  destruct data as [[text|items] pre new ctx];
    unfold filter_summary_only, filter_remove_sensitive_info; simpl;
    repeat split.
  - now rewrite slice_last_three_twice.
  - change (-3)%Z with (- Z.of_nat 3)%Z.
    rewrite slice_from_negative, length_skipn by lia. lia.
Qed.

End FilterComposition.

(** ** The guardrails over every outcome of their checker *)

Section GuardrailOutcomes.
Import Py Sdk.

Variable TResponseInputItem : Type.
Variable str_item : TResponseInputItem -> string.
Variable format_2f : float -> string.
Variable Context : Type.

(** X7. A guardrail function raises only what its [except Exception]
    cannot catch: each of the four raises [e] exactly when its checker
    raised [e] and [e] is outside [Exception]; for every other outcome of
    the checker it returns a verdict. *)
Theorem guardrails_raise_only_uncaught
    (e : exn)
    (run1 : string -> Guardrail0206.UserContext ->
            result Guardrail0206.InappropriateContentOutput)
    (ctx1 : Guardrail0206.UserContext)
    (input1 : string + list TResponseInputItem)
    (run2 : string -> Guardrail0206.UserContext ->
            result Guardrail0206.ProfessionalityOutput)
    (ctx2 : Guardrail0206.UserContext)
    (output2 : Guardrail0206.CustomerResponse)
    (run3 : string + list TResponseInputItem -> Context ->
            result Guardrail0401.MathHomeworkDetection)
    (ctx3 : Context) (input3 : string + list TResponseInputItem)
    (run4 : string -> Context ->
            result Guardrail0401.InappropriateContentDetection)
    (ctx4 : Context) (output4 : Guardrail0401.CustomerSupportResponse) :
  (snd (Guardrail0206.inappropriate_content_guardrail
          str_item format_2f run1 ctx1 input1) = inl e
   <-> run1 (Guardrail0206.text_input str_item input1) ctx1 = inl e /\
       caught_by_Exception e = false) /\
  (snd (Guardrail0206.professionality_guardrail run2 ctx2 output2) = inl e
   <-> run2 (Guardrail0206.response output2) ctx2 = inl e /\
       caught_by_Exception e = false) /\
  (snd (Guardrail0401.math_homework_input_guardrail
          format_2f run3 ctx3 input3) = inl e
   <-> run3 input3 ctx3 = inl e /\ caught_by_Exception e = false) /\
  (snd (Guardrail0401.inappropriate_content_output_guardrail
          run4 ctx4 output4) = inl e
   <-> run4 (Guardrail0401.response output4) ctx4 = inl e /\
       caught_by_Exception e = false).
Proof.
  unfold Guardrail0206.inappropriate_content_guardrail,
    Guardrail0206.professionality_guardrail,
    Guardrail0401.math_homework_input_guardrail,
    Guardrail0401.inappropriate_content_output_guardrail.
  cbv zeta.
  destruct (run1 (Guardrail0206.text_input str_item input1) ctx1) as [e1|o1];
    destruct (run2 (Guardrail0206.response output2) ctx2) as [e2|o2];
    destruct (run3 input3 ctx3) as [e3|o3];
    destruct (run4 (Guardrail0401.response output4) ctx4) as [e4|o4];
    repeat match goal with
           | |- context [caught_by_Exception ?x] =>
               destruct (caught_by_Exception x) eqn:?
           end;
    cbn [snd]; intuition congruence.
Qed.

Lemma float_ltb_leb (x y : float) :
  PrimFloat.ltb x y = true -> PrimFloat.leb x y = true.
Proof.
  rewrite ltb_spec, leb_spec. unfold SFltb, SFleb.
  now destruct (SFcompare (Prim2SF x) (Prim2SF y)) as [[]|].
Qed.

Lemma SFeqb_refl_false (s : spec_float) : SFeqb s s = false -> s = S754_nan.
Proof.
  unfold SFeqb.
  destruct s as [sign|sign| |sign m e]; try destruct sign; simpl;
    rewrite ?Z.compare_refl, ?Pos.compare_cont_refl;
    try discriminate; auto.
Qed.

Lemma float_nan_not_above (x c : float) :
  PrimFloat.is_nan c = true ->
  PrimFloat.ltb x c = false /\ PrimFloat.leb x c = false.
Proof.
  unfold PrimFloat.is_nan. rewrite negb_true_iff, eqb_spec. intros H.
  apply SFeqb_refl_false in H.
  rewrite ltb_spec, leb_spec, H. unfold SFltb, SFleb.
  now destruct (Prim2SF x).
Qed.

Lemma float_at_threshold (c : float) :
  PrimFloat.leb literal_0_7 c = true ->
  PrimFloat.ltb literal_0_7 c = false ->
  c = literal_0_7.
Proof.
  rewrite ltb_spec, leb_spec. unfold SFltb, SFleb. intros Le Lt.
  apply Prim2SF_inj.
  assert (Eq : SFcompare (Prim2SF literal_0_7) (Prim2SF c) = Some Eq)
    by (destruct (SFcompare (Prim2SF literal_0_7) (Prim2SF c)) as [[]|];
        congruence).
  clear Le Lt. revert Eq.
  replace (Prim2SF literal_0_7)
    with (S754_finite false 6305039478318694 (-53))
    by (vm_compute; reflexivity).
  destruct (Prim2SF c) as [sign|sign| |sign m e]; unfold SFcompare;
    try discriminate.
  - destruct sign; discriminate.
  - destruct sign; [discriminate|].
    destruct (Z.compare (-53) e) eqn:E; try discriminate.
    apply Z.compare_eq in E. subst e.
    intros [= H]. apply Pos.compare_eq in H. now subst m.
Qed.

(** X8. On the same flag and confidence the two input guardrails agree
    except at the threshold: whenever the one of 0206 trips, the one of
    0401 trips; a confidence that is not a number trips neither; and the
    one of 0401 trips while the one of 0206 does not exactly when the flag
    is set and the confidence is the literal 0.7. *)
Theorem input_guardrails_differ_only_at_threshold
    (flag : bool) (why : string) (score : float)
    (run1 : string -> Guardrail0206.UserContext ->
            result Guardrail0206.InappropriateContentOutput)
    (ctx1 : Guardrail0206.UserContext)
    (input1 : string + list TResponseInputItem)
    (run3 : string + list TResponseInputItem -> Context ->
            result Guardrail0401.MathHomeworkDetection)
    (ctx3 : Context) (input3 : string + list TResponseInputItem) :
  run1 (Guardrail0206.text_input str_item input1) ctx1
    = inr (Guardrail0206.mkInappropriate flag why score) ->
  run3 input3 ctx3 = inr (Guardrail0401.mkMath flag why score) ->
  let v0206 :=
    verdict (Guardrail0206.inappropriate_content_guardrail
               str_item format_2f run1 ctx1 input1) in
  let v0401 :=
    verdict (Guardrail0401.math_homework_input_guardrail
               format_2f run3 ctx3 input3) in
  (v0206 = Some true -> v0401 = Some true) /\
  (PrimFloat.is_nan score = true ->
   v0206 = Some false /\ v0401 = Some false) /\
  (v0401 = Some true /\ v0206 = Some false
   <-> flag = true /\ score = literal_0_7).
Proof.
  intros H1 H3.
  unfold verdict, Guardrail0206.inappropriate_content_guardrail,
    Guardrail0401.math_homework_input_guardrail.
  cbv zeta. rewrite H1, H3.
  cbn [snd tripwire_triggered Guardrail0206.is_inappropriate
       Guardrail0206.confidence_score Guardrail0401.is_math_homework
       Guardrail0401.confidence_score].
  split; [|split].
  - intros [= H]. apply andb_true_iff in H as [-> H].
    now rewrite (@float_ltb_leb _ _ H).
  - intros Nan. destruct (@float_nan_not_above literal_0_7 score Nan)
      as [-> ->]. now rewrite !andb_false_r.
  - split.
    + intros [[= Le] [= Lt]]. apply andb_true_iff in Le as [-> Le].
      simpl in Lt. split; [reflexivity|]. now apply float_at_threshold.
    + intros [-> ->]. split; reflexivity.
Qed.

End GuardrailOutcomes.

(** ** The lookup tools *)

Section Lookups.
Import Py.

(** X9. [get_company_policy] answers the three topics it knows and falls
    back on the not-found text for every other topic: the match is on the
    exact key, and the not-found text is returned exactly for the topics
    that are none of [refund], [shipping] and [support]. *)
Theorem get_company_policy_known_topics (topic : string) :
  (Guardrail0206.get_company_policy topic
     = "該当するポリシーが見つかりません。"
   <-> topic <> "refund" /\ topic <> "shipping" /\ topic <> "support") /\
  (topic = "refund" ->
   Guardrail0206.get_company_policy topic
     = "30日以内の未使用商品は全額返金可能です。") /\
  (topic = "shipping" ->
   Guardrail0206.get_company_policy topic
     = "通常配送は3-5営業日、お急ぎ便は翌日配送です。") /\
  (topic = "support" ->
   Guardrail0206.get_company_policy topic
     = "平日9:00-18:00にサポートを提供しています。").
Proof.
  unfold Guardrail0206.get_company_policy, dict_get,
    Guardrail0206.policies. cbn [find fst snd].
  destruct (String.eqb_spec "refund" topic) as [<-|R].
  { split; [|repeat split; intros; try discriminate].
    split; [intros H; exfalso; revert H | intros [H _]; now elim H].
    apply String.eqb_neq. vm_compute. reflexivity. }
  destruct (String.eqb_spec "shipping" topic) as [<-|S].
  { split; [|repeat split; intros; try discriminate].
    split; [intros H; exfalso; revert H | intros (_ & H & _); now elim H].
    apply String.eqb_neq. vm_compute. reflexivity. }
  destruct (String.eqb_spec "support" topic) as [<-|P].
  { split; [|repeat split; intros; try discriminate].
    split; [intros H; exfalso; revert H | intros (_ & _ & H); now elim H].
    apply String.eqb_neq. vm_compute. reflexivity. }
  split; [|repeat split; intros; congruence].
  split; [intros _; repeat split; congruence | reflexivity].
Qed.

(** X10. [get_personalized_recommendation] reads only the user's premium
    flag, location and, for a premium user, name: two users that agree on
    these get the same recommendation in every category, whatever their
    ids, languages, preferences and purchases; and a category other than
    [food], [shopping] and [entertainment] gets the not-found text for
    every user. *)
Theorem recommendation_reads_only_flag_location_name
    (user other : Context.UserContext) (category : string) :
  Context.is_premium_user user = Context.is_premium_user other ->
  Context.location user = Context.location other ->
  (Context.is_premium_user user = true ->
   Context.name user = Context.name other) ->
  Context.get_personalized_recommendation user category
    = Context.get_personalized_recommendation other category /\
  (category <> "food" -> category <> "shopping" ->
   category <> "entertainment" ->
   Context.get_personalized_recommendation user category
     = "該当するレコメンドが見つかりません").
Proof.
  intros Flag Location Name.
  unfold Context.get_personalized_recommendation, dict_get.
  rewrite <- Flag, <- Location.
  destruct (Context.is_premium_user user); [rewrite <- (Name eq_refl)|];
    cbn [find fst snd]; (split; [reflexivity|]); intros F S E;
    destruct (String.eqb_spec "food" category); try congruence;
    destruct (String.eqb_spec "shopping" category); try congruence;
    destruct (String.eqb_spec "entertainment" category); congruence.
Qed.

(** X11. A purchase history of one to five entries is listed whole: every
    purchase occurs in the text [check_purchase_history] returns, which
    starts with the user's name; and an empty history gives the
    no-purchases text. *)
Theorem check_purchase_history_lists_short_history
    (user : Context.UserContext) (purchase : string) :
  (List.length (Context.purchase_history user) <= 5)%nat ->
  In purchase (Context.purchase_history user) ->
  Substring purchase (Context.check_purchase_history user) /\
  Context.check_purchase_history user
    = Context.name user ++ "様の最近の購入: "
      ++ join ", " (Context.purchase_history user) /\
  Context.check_purchase_history
    (Context.mkUser (Context.name user) (Context.user_id user)
       (Context.language user) (Context.is_premium_user user)
       (Context.location user) (Context.preferences user) [])
    = Context.name user ++ "様の購入履歴はまだありません".
Proof.
  intros Short Listed.
  assert (Nonempty : Context.purchase_history user <> []%list)
    by (intros E; rewrite E in Listed; elim Listed).
  rewrite (@check_purchase_history_nonempty user Nonempty).
  rewrite firstn_all2 by lia. repeat split.
  apply Substring_after, Substring_after. now apply Substring_of_joined.
Qed.

End Lookups.

(** ** The scenario script's [main] *)

Section ScenarioMain.
Import Py Handoff.

Variable run : Runner.

Lemma run_scenario_events (scenario_name customer_query : string)
    (customer : CustomerContext) :
  List.length
    (filter is_run
       (fst (run_scenario run scenario_name customer_query customer)))
    = 1%nat /\
  forall success : bool,
    snd (run_scenario run scenario_name customer_query customer)
      = inr success ->
    success = returned (run triage_agent customer_query customer 10%Z).
Proof.
  unfold run_scenario. cbv zeta.
  destruct (run triage_agent customer_query customer 10%Z) as [e|r].
  - destruct (caught_by_Exception e); cbn [fst snd returned];
      (split; [reflexivity|]); intros success [= <-]; reflexivity.
  - cbn [fst snd returned]. split; [now destruct (agent_name r)|].
    now intros success [= <-].
Qed.

Lemma scenario_events_lifted (evs : list event) :
  List.length (filter is_main_run (map Ev evs))
    = List.length (filter is_run evs) /\
  filter is_sleep (map Ev evs) = []%list.
Proof.
  induction evs as [|[line|agent text ctx turns] evs [IH IH']]; simpl; auto.
Qed.

(** What the loop over the scenarios counts, when it ends. *)
Lemma run_scenarios_counts (todo : list Scenario) (start : nat)
    (evs : list main_event) (success_count : nat) :
  run_scenarios run todo start = (evs, inr success_count) ->
  success_count = (start + List.length (filter (succeeds run) todo))%nat /\
  List.length (filter is_main_run evs) = List.length todo /\
  List.length (filter is_sleep evs) = List.length todo.
Proof.
  revert start evs. induction todo as [|scenario todo IH];
    intros start evs; simpl.
  - intros [= <- <-]. simpl. repeat split. lia.
  - destruct (run_scenario_events (scenario_name scenario)
                (scenario_query scenario) (scenario_context scenario))
      as [One Success].
    destruct (run_scenario run (scenario_name scenario)
                (scenario_query scenario) (scenario_context scenario))
      as [evs1 [e|success]]; [discriminate|].
    cbn [fst snd] in One, Success. specialize (Success success eq_refl).
    destruct (run_scenarios run todo
                (if success then S start else start))
      as [evs2 outcome] eqn:Rest.
    intros [= <- ->]. destruct (IH _ _ Rest) as (Count & Runs & Sleeps).
    destruct (scenario_events_lifted evs1) as [Lifted NoSleep].
    rewrite !filter_app, !length_app, NoSleep, Lifted, One.
    cbn [filter is_main_run is_sleep List.length]. rewrite Runs, Sleeps.
    unfold succeeds at 1. rewrite <- Success.
    repeat split; try lia. destruct success; simpl; lia.
Qed.

(** The loop over the scenarios ends when every exception of a run is of
    class [Exception]. *)
Lemma run_scenarios_ends (todo : list Scenario) (start : nat) :
  (forall (scenario : Scenario) (e : exn),
     In scenario todo ->
     run triage_agent (scenario_query scenario)
         (scenario_context scenario) 10%Z = inl e ->
     caught_by_Exception e = true) ->
  exists success_count : nat,
    snd (run_scenarios run todo start) = inr success_count.
Proof.
  revert start. induction todo as [|scenario todo IH]; intros start Caught;
    simpl.
  - now exists start.
  - pose proof (Caught scenario) as Here.
    unfold run_scenario. cbv zeta.
    destruct (run triage_agent (scenario_query scenario)
                (scenario_context scenario) 10%Z) as [e|r].
    + rewrite (Here e (or_introl eq_refl) eq_refl).
      destruct (IH start (fun s e' H => Caught s e' (or_intror H)))
        as [n Ends].
      destruct (run_scenarios run todo start) as [evs outcome].
      now exists n.
    + destruct (IH (S start) (fun s e' H => Caught s e' (or_intror H)))
        as [n Ends].
      destruct (run_scenarios run todo (S start)) as [evs outcome].
      now exists n.
Qed.

(** A scenario makes its one run on the triage agent, with the
    scenario's query and context and [max_turns=10]. *)
Lemma run_scenario_one_run (scenario_name customer_query : string)
    (customer : CustomerContext) :
  filter is_run (fst (run_scenario run scenario_name customer_query customer))
  = [EvRun triage_agent customer_query customer 10]%list.
Proof.
  unfold run_scenario. cbv zeta.
  destruct (run triage_agent customer_query customer 10%Z) as [e|r].
  - destruct (caught_by_Exception e); reflexivity.
  - now destruct (agent_name r).
Qed.

Lemma scenario_runs_lifted (evs : list event) :
  filter is_run_or_sleep (map Ev evs) = map Ev (filter is_run evs).
Proof.
  induction evs as [|[line|agent text ctx turns] evs IH]; simpl; auto.
  now rewrite IH.
Qed.

(** The runs and the sleeps of the loop over the scenarios, when it ends:
    for each scenario in order, its run and then a sleep of one second. *)
Lemma run_scenarios_trace (todo : list Scenario) (start : nat)
    (evs : list main_event) (success_count : nat) :
  run_scenarios run todo start = (evs, inr success_count) ->
  filter is_run_or_sleep evs
  = flat_map (fun scenario =>
                [Ev (EvRun triage_agent (scenario_query scenario)
                           (scenario_context scenario) 10);
                 EvSleep 1]) todo.
Proof.
  revert start evs. induction todo as [|scenario todo IH];
    intros start evs; simpl.
  - now intros [= <- <-].
  - pose proof (run_scenario_one_run (scenario_name scenario)
                  (scenario_query scenario) (scenario_context scenario))
      as One.
    destruct (run_scenario run (scenario_name scenario)
                (scenario_query scenario) (scenario_context scenario))
      as [evs1 [e|success]]; [discriminate|].
    cbn [fst] in One.
    destruct (run_scenarios run todo
                (if success then S start else start))
      as [evs2 outcome] eqn:Rest.
    intros [= <- ->].
    rewrite filter_app, scenario_runs_lifted, One.
    cbn [map app filter is_run_or_sleep is_main_run is_sleep orb].
    now rewrite (IH _ _ Rest).
Qed.

(** X12. [main] of the scenario script leaves with [sys.exit(1)] before
    any run when the API key is not set.  With the key set and every
    exception of a run of class [Exception], it returns normally; its
    runs and sleeps are, for each scenario in order, one run of the
    triage agent on the scenario's query and context with [max_turns=10]
    followed by one sleep of a second; and it ends by printing the
    summary: the number of scenarios whose run returned out of the number
    of scenarios, then the line for success when the two are equal and
    the line with the number of failed scenarios otherwise. *)
Theorem main_counts_the_scenarios_that_returned (todo : list Scenario)
    (key : option string) :
  (unset key = true ->
   snd (main_on todo key run) = inl (sys_exit 1) /\
   filter is_main_run (fst (main_on todo key run)) = []%list) /\
  (unset key = false ->
   (forall (scenario : Scenario) (e : exn),
      In scenario todo ->
      run triage_agent (scenario_query scenario)
          (scenario_context scenario) 10%Z = inl e ->
      caught_by_Exception e = true) ->
   exists (before : list main_event) (closing : string),
     main_on todo key run
       = ((before ++
           [Ev (EvPrint (nl ++ times "=" 60));
            Ev (EvPrint "実行結果サマリー");
            Ev (EvPrint (times "=" 60));
            Ev (EvPrint
                  ("成功: "
                   ++ str_of_int
                        (Z.of_nat
                           (List.length (filter (succeeds run) todo)))
                   ++ "/" ++ str_of_int (Z.of_nat (List.length todo))
                   ++ " シナリオ"));
            Ev (EvPrint closing)])%list,
          inr tt) /\
     filter is_run_or_sleep before
       = flat_map (fun scenario =>
                     [Ev (EvRun triage_agent (scenario_query scenario)
                                (scenario_context scenario) 10);
                      EvSleep 1]) todo /\
     (List.length (filter (succeeds run) todo) <= List.length todo)%nat /\
     (List.length (filter (succeeds run) todo) = List.length todo ->
      closing = "✅ すべてのシナリオが正常に実行されました") /\
     ((List.length (filter (succeeds run) todo) < List.length todo)%nat ->
      closing
      = "⚠️ "
        ++ str_of_int
             (Z.of_nat
                (List.length todo
                 - List.length (filter (succeeds run) todo)))
        ++ " 個のシナリオでエラーが発生しました")).
Proof.
  unfold main_on, check_environment. cbv zeta. split; intros Key; rewrite Key.
  - split; reflexivity.
  - intros Caught. destruct (run_scenarios_ends todo 0 Caught) as [n Ends].
    destruct (run_scenarios run todo 0) as [evs outcome] eqn:Loop.
    cbn [snd] in Ends. subst outcome.
    destruct (run_scenarios_counts _ _ Loop) as (Count & _ & _).
    pose proof (run_scenarios_trace _ _ Loop) as Trace.
    simpl in Count. subst n. unfold summary.
    pose proof (filter_length_le (succeeds run) todo) as Le.
    eexists _, _. split; [|split; [|split; [exact Le|split]]].
    + rewrite !app_assoc. reflexivity.
    + rewrite !filter_app. cbn [map filter is_run_or_sleep is_main_run
                                is_sleep orb app].
      exact Trace.
    + intros Same. rewrite Same, Nat.eqb_refl. reflexivity.
    + intros Less.
      destruct (Nat.eqb_spec (List.length (filter (succeeds run) todo))
                  (List.length todo)) as [Same|_]; [lia|].
      now rewrite Nat2Z.inj_sub by exact Le.
Qed.

End ScenarioMain.

(** ** The guardrail scripts' [main] *)

Section Guardrail0401Main.
Import Py Guardrail0401.

Variable run : Runner.

Lemma run_inputs_0401_app (evs evs' : list event) :
  run_inputs (evs ++ evs') = (run_inputs evs ++ run_inputs evs')%list.
Proof.
  induction evs as [|[line|text|flag] evs IH]; simpl; auto. now rewrite IH.
Qed.

Lemma printed_lines_no_run (lines : list string) :
  run_inputs (map EvPrint lines) = []%list.
Proof. induction lines; simpl; auto. Qed.

(** An iteration makes one run, on its own input, and is left only by an
    exception outside [Exception] that the run raised. *)
Lemma run_case_0401 (i : nat) (test_case : TestCase) :
  run_inputs (fst (run_case run i test_case)) = [case_input test_case]%list /\
  forall e : exn,
    snd (run_case run i test_case) = Some e ->
    run i (case_input test_case) = inl e /\ caught_by_Exception e = false.
Proof.
  unfold run_case, caught_by_Exception.
  destruct (run i (case_input test_case)) as [[c msg results]|r];
    cbn [exc_type]; [|split; [reflexivity | discriminate]].
  destruct c; cbn [fst snd is_Exception]; (split; [reflexivity|]);
    intros e H; try discriminate; injection H as <-; auto.
Qed.

Lemma run_cases_0401 (cases : list TestCase) (i : nat) :
  (forall (j : nat) (text : string) (e : exn),
     run j text = inl e -> caught_by_Exception e = true) ->
  run_cases run i cases
    = (fst (run_cases run i cases), None) /\
  run_inputs (fst (run_cases run i cases)) = map case_input cases.
Proof.
  intros Caught. revert i. induction cases as [|test_case cases IH];
    intros i; simpl; [auto|].
  destruct (run_case_0401 i test_case) as [One Left].
  destruct (run_case run i test_case) as [evs [e|]]; cbn [fst snd] in *.
  - destruct (Left e eq_refl) as [Run No].
    rewrite (Caught _ _ _ Run) in No. discriminate.
  - destruct (IH (S i)) as [Ends Inputs].
    destruct (run_cases run (S i) cases) as [evs' status]; cbn [fst snd] in *.
    injection Ends as ->. split; [reflexivity|].
    now rewrite run_inputs_0401_app, One, Inputs.
Qed.

(** X13. [main] of 0401 returns 1 without a run when the API key is not
    set, after printing the configuration error.  With the key set it
    returns 0 whatever the three runs do, tripwire or error, as long as
    every exception of a run is of class [Exception]; and it runs exactly
    the inputs of the three test cases, in order. *)
Theorem main_0401_exit_code (key : option string) :
  (unset key = true ->
   snd (main key run) = inr 1%Z /\
   run_inputs (fst (main key run)) = []%list /\
   In (EvPrint ("❌ 環境設定エラー: " ++ exc_str missing_key))
      (fst (main key run))) /\
  (unset key = false ->
   (forall (i : nat) (text : string) (e : exn),
      run i text = inl e -> caught_by_Exception e = true) ->
   snd (main key run) = inr 0%Z /\
   run_inputs (fst (main key run)) = map case_input test_cases).
Proof.
  unfold main, load_environment. cbv zeta. split; intros Key.
  - destruct key as [text|]; [rewrite Key|]; cbn; repeat split; auto.
  - intros Caught. destruct key as [text|]; [rewrite Key | discriminate].
    unfold test_guardrails.
    destruct (run_cases_0401 test_cases 1 Caught) as [Ends Inputs].
    rewrite Ends. cbn [fst snd]. split; [reflexivity|].
    rewrite !run_inputs_0401_app, Inputs. reflexivity.
Qed.

End Guardrail0401Main.

Section Guardrail0206Main.
Import Py Guardrail0206.

Variable format_2f : float -> string.
Variable run : Runner.

Lemma key_check_no_run (key : option string) :
  run_inputs (fst (check_api_key key)) = []%list /\
  snd (check_api_key key) = negb (unset key).
Proof.
  unfold check_api_key. destruct (unset key); [split; reflexivity|].
  destruct key as [text|]; [|split; reflexivity].
  destruct (String.prefix "sk-" text); split; reflexivity.
Qed.

(** X14. [main] of 0206 leaves with [sys.exit(1)] before any run when the
    API key is not set.  With the key set (a key that does not start with
    [sk-] only gets a warning) and every exception of a run of class
    [Exception], tripwires included, it runs the three test cases and
    returns normally.  With the key set, whatever the runs do, it ends
    with an exception only as [sys.exit(0)] or with an exception outside
    [Exception] that a run raised itself. *)
Theorem main_0206_exit_status (key : option string) :
  (unset key = true ->
   snd (main format_2f key run) = inl (sys_exit 1) /\
   run_inputs (fst (main format_2f key run)) = []%list) /\
  (unset key = false ->
   (forall (i : nat) (text : string) (user : UserContext) (e : exn),
      run i text user = inl e -> caught_by_Exception e = true) ->
   snd (main format_2f key run) = inr tt /\
   run_inputs (fst (main format_2f key run)) = map case_input test_cases) /\
  (unset key = false ->
   forall e : exn,
     snd (main format_2f key run) = inl e ->
     e = sys_exit 0 \/
     (caught_by_Exception e = false /\
      exists (i : nat) (text : string) (user : UserContext),
        run i text user = inl e)).
Proof.
  unfold main. destruct (key_check_no_run key) as [NoRun Ok].
  destruct (check_api_key key) as [key_lines ok]; cbn [fst snd] in *.
  subst ok. cbv zeta. unfold test_agent_with_guardrails.
  pose proof (run_cases_inputs format_2f run (mkUser "田中様" "customer")
                test_cases 1) as (k & Inputs & All).
  pose proof (fun e => @run_cases_status format_2f run
                         (mkUser "田中様" "customer") test_cases 1 e)
    as Status.
  destruct (run_cases format_2f run (mkUser "田中様" "customer") 1 test_cases)
    as [evs status]; cbn [fst snd] in *.
  split; [|split]; intros Key; rewrite Key; cbn [negb].
  - split; [reflexivity | exact NoRun].
  - intros Caught. destruct status as [e|].
    + destruct (Status e eq_refl) as (No & i & text & Run).
      rewrite (Caught _ _ _ _ Run) in No. discriminate.
    + cbn [snd fst]. split; [reflexivity|].
      rewrite !run_inputs_app, NoRun, Inputs, (All eq_refl). reflexivity.
  - intros e. destruct status as [e'|]; [|discriminate].
    destruct (Status e' eq_refl) as (No & i & text & Run).
    unfold caught_by_Exception in No.
    destruct e' as [c msg results]; cbn [exc_type] in *.
    destruct c; cbn [is_Exception] in No; try discriminate; cbn [snd];
      intros [= <-]; auto; right; split; auto;
      now exists i, text, (mkUser "田中様" "customer").
Qed.

End Guardrail0206Main.

(** ** The context script's [main] *)

Section ContextMain.
Import Py Context.

Variable run : Runner.

Lemma runs_of_context_app (evs evs' : list event) :
  runs_of (evs ++ evs') = (runs_of evs ++ runs_of evs')%list.
Proof.
  induction evs as [|[line|question user] evs IH]; simpl; auto.
  now rewrite IH.
Qed.

Lemma nth_error_in_range (A : Type) (l : list A) (n : nat) (x : A) :
  nth_error l n = Some x -> (n < List.length l)%nat.
Proof. intros H. apply nth_error_Some. now rewrite H. Qed.

(** The loop over the questions when every run returns: it asks them all,
    each for the same user, and the next call number is past them. *)
Lemma ask_all_returns (user : UserContext) (questions : list string)
    (i : nat) :
  (forall (j : nat) (question : string),
     nth_error questions j = Some question ->
     returned (run (i + j)%nat question user) = true) ->
  snd (ask_all run user i questions)
    = inr (i + List.length questions)%nat /\
  runs_of (fst (ask_all run user i questions))
    = map (fun question => (question, user)) questions.
Proof.
  revert i. induction questions as [|question questions IH]; intros i Fine;
    simpl.
  - split; [f_equal; lia | reflexivity].
  - pose proof (Fine 0%nat question eq_refl) as Here.
    rewrite Nat.add_0_r in Here.
    destruct (run i question user) as [e|r]; [discriminate|].
    destruct (IH (S i)) as [Out Runs].
    { intros j q Nth. specialize (Fine (S j) q Nth).
      now rewrite Nat.add_succ_r in Fine. }
    destruct (ask_all run user (S i) questions) as [evs outcome];
      cbn [fst snd] in *.
    split; [rewrite Out; f_equal; lia|].
    destruct (filter is_tool_call (new_items r)); simpl; now rewrite Runs.
Qed.

(** The loop over the questions when the run of question [j] is the first
    to raise: the exception leaves the loop, the questions up to that one
    were asked, and the run that raised is the last event. *)
Lemma ask_all_raises (user : UserContext) (questions : list string)
    (i j : nat) (question : string) (e : exn) :
  nth_error questions j = Some question ->
  run (i + j)%nat question user = inl e ->
  (forall (j' : nat) (question' : string),
     (j' < j)%nat -> nth_error questions j' = Some question' ->
     returned (run (i + j')%nat question' user) = true) ->
  snd (ask_all run user i questions) = inl e /\
  runs_of (fst (ask_all run user i questions))
    = map (fun q => (q, user)) (firstn (S j) questions) /\
  exists before : list event,
    fst (ask_all run user i questions)
    = (before ++ [EvRun question user])%list.
Proof.
  revert i j. induction questions as [|first questions IH];
    intros i j Nth Run Before; [destruct j; discriminate|].
  destruct j as [|j].
  - injection Nth as ->. rewrite Nat.add_0_r in Run. simpl. rewrite Run.
    split; [reflexivity|]. split; [reflexivity|].
    now exists [EvPrint (Handoff.nl ++ "質問: " ++ question);
                EvPrint (Handoff.times "-" 30)]%list.
  - simpl in Nth.
    pose proof (Before 0%nat first (Nat.lt_0_succ j) eq_refl) as Here.
    rewrite Nat.add_0_r in Here. cbn [ask_all]. cbv zeta.
    destruct (run i first user) as [e0|r]; [discriminate|].
    destruct (IH (S i) j Nth) as (Out & Runs & before & Trace).
    { now rewrite Nat.add_succ_r in Run. }
    { intros j' q' Lt Nth'.
      specialize (Before (S j') q' (proj1 (Nat.succ_lt_mono _ _) Lt) Nth').
      now rewrite Nat.add_succ_r in Before. }
    destruct (ask_all run user (S i) questions) as [evs outcome];
      cbn [fst snd] in *.
    subst evs outcome. split; [reflexivity|]. split.
    + destruct (filter is_tool_call (new_items r));
        cbn [app runs_of firstn map]; now rewrite Runs.
    + eexists. rewrite !app_comm_cons, !app_assoc. reflexivity.
Qed.

Lemma ask_users_returns (users : list UserContext) (i : nat) :
  (forall (j : nat) (user : UserContext),
     nth_error users j = Some user ->
     returned (run (i + j)%nat "私に合ったレコメンドをください" user) = true) ->
  snd (ask_users run i users) = inr (i + List.length users)%nat /\
  runs_of (fst (ask_users run i users))
    = map (fun user => ("私に合ったレコメンドをください", user)) users.
Proof.
  revert i. induction users as [|user users IH]; intros i Fine; simpl.
  - split; [f_equal; lia | reflexivity].
  - pose proof (Fine 0%nat user eq_refl) as Here.
    rewrite Nat.add_0_r in Here.
    destruct (run i "私に合ったレコメンドをください" user) as [e|r];
      [discriminate|].
    destruct (IH (S i)) as [Out Runs].
    { intros j u Nth. specialize (Fine (S j) u Nth).
      now rewrite Nat.add_succ_r in Fine. }
    destruct (ask_users run (S i) users) as [evs outcome];
      cbn [fst snd] in *.
    split; [rewrite Out; f_equal; lia|].
    cbn [runs_of app]. now rewrite Runs.
Qed.

Lemma ask_users_raises (users : list UserContext) (i j : nat)
    (user : UserContext) (e : exn) :
  nth_error users j = Some user ->
  run (i + j)%nat "私に合ったレコメンドをください" user = inl e ->
  (forall (j' : nat) (user' : UserContext),
     (j' < j)%nat -> nth_error users j' = Some user' ->
     returned (run (i + j')%nat "私に合ったレコメンドをください" user') = true) ->
  snd (ask_users run i users) = inl e /\
  runs_of (fst (ask_users run i users))
    = map (fun u => ("私に合ったレコメンドをください", u))
          (firstn (S j) users) /\
  exists before : list event,
    fst (ask_users run i users)
    = (before ++ [EvRun "私に合ったレコメンドをください" user])%list.
Proof.
  revert i j. induction users as [|first users IH];
    intros i j Nth Run Before; [destruct j; discriminate|].
  destruct j as [|j].
  - injection Nth as ->. rewrite Nat.add_0_r in Run. simpl. rewrite Run.
    split; [reflexivity|]. split; [reflexivity|].
    now exists [EvPrint (Handoff.nl ++ "【ユーザー: " ++ name user ++ "】")]%list.
  - simpl in Nth.
    pose proof (Before 0%nat first (Nat.lt_0_succ j) eq_refl) as Here.
    rewrite Nat.add_0_r in Here. cbn [ask_users]. cbv zeta.
    destruct (run i "私に合ったレコメンドをください" first) as [e0|r];
      [discriminate|].
    destruct (IH (S i) j Nth) as (Out & Runs & before & Trace).
    { now rewrite Nat.add_succ_r in Run. }
    { intros j' u' Lt Nth'.
      specialize (Before (S j') u' (proj1 (Nat.succ_lt_mono _ _) Lt) Nth').
      now rewrite Nat.add_succ_r in Before. }
    destruct (ask_users run (S i) users) as [evs outcome];
      cbn [fst snd] in *.
    subst evs outcome. split; [reflexivity|]. split.
    + cbn [app runs_of firstn map]. now rewrite Runs.
    + eexists. rewrite !app_comm_cons, !app_assoc. reflexivity.
Qed.

(** The planned runs, by the example they belong to. *)
Lemma expected_runs_of_example (j : nat) (question : string) :
  nth_error example_questions j = Some question ->
  nth_error expected_runs j = Some (question, example_user).
Proof.
  intros Nth. unfold expected_runs.
  rewrite nth_error_app1
    by (rewrite length_map; exact (nth_error_in_range _ _ Nth)).
  exact (map_nth_error (fun q => (q, example_user)) _ _ Nth).
Qed.

Lemma expected_runs_of_users (j : nat) (user : UserContext) :
  nth_error example_users j = Some user ->
  nth_error expected_runs (4 + j)
  = Some ("私に合ったレコメンドをください", user).
Proof.
  intros Nth. unfold expected_runs.
  rewrite nth_error_app2 by (simpl; lia).
  replace (4 + j - _)%nat with j by (simpl; lia).
  exact (map_nth_error (fun u => ("私に合ったレコメンドをください", u)) _ _ Nth).
Qed.

Lemma expected_runs_split (j : nat) (question : string) (user : UserContext) :
  nth_error expected_runs j = Some (question, user) ->
  (nth_error example_questions j = Some question /\ user = example_user) \/
  (exists j2 : nat,
     j = (4 + j2)%nat /\ nth_error example_users j2 = Some user /\
     question = "私に合ったレコメンドをください").
Proof.
  destruct j as [|[|[|[|j]]]]; cbn.
  1-4: intros [= <- <-]; left; split; reflexivity.
  intros Nth. right. exists j. split; [reflexivity|].
  destruct j as [|[|j]]; cbn in *;
    try (injection Nth as <- <-; split; reflexivity).
  destruct j; discriminate.
Qed.

(** [main] when the first run to raise is one of [run_example]. *)
Lemma main_stops_in_example (j : nat) (question : string) (e : exn) :
  nth_error example_questions j = Some question ->
  run j question example_user = inl e ->
  (forall (j' : nat) (question' : string),
     (j' < j)%nat -> nth_error example_questions j' = Some question' ->
     returned (run j' question' example_user) = true) ->
  main_stopped_at run j question example_user e.
Proof.
  intros Nth Run Before.
  destruct (@ask_all_raises example_user example_questions 0 j question e
              Nth Run Before) as (Out & Runs & before & Trace).
  assert (Planned :
    map (fun q => (q, example_user)) (firstn (S j) example_questions)
    = firstn (S j) expected_runs).
  { unfold expected_runs. rewrite firstn_app, firstn_map.
    pose proof (nth_error_in_range _ _ Nth) as Short.
    replace (S j - _)%nat with 0%nat by (rewrite length_map; lia).
    now rewrite app_nil_r. }
  unfold main_stopped_at, main, run_example.
  destruct (ask_all run example_user 0 example_questions) as [evs outcome];
    cbn [fst snd] in *.
  subst evs outcome. rewrite <- Planned, <- Runs.
  split; [|split]; intros; try intros Caught.
  - destruct (caught_by_Exception e); cbn [fst];
      rewrite ?runs_of_context_app; simpl; rewrite ?runs_of_context_app;
      simpl; now rewrite ?app_nil_r.
  - rewrite H. cbn [fst snd]. split; [reflexivity|].
    match goal with
    | |- exists _, ((?banner ++ ?b ++ _) ++ _)%list = _ =>
        exists (banner ++ b)%list
    end.
    rewrite <- !app_assoc. reflexivity.
  - rewrite H. cbn [fst snd]. split; [reflexivity|].
    match goal with
    | |- exists _, (?banner ++ ?b ++ _)%list = _ =>
        exists (banner ++ b)%list
    end.
    rewrite <- !app_assoc. reflexivity.
Qed.

(** [main] when [run_example] returned and the first run to raise is one
    of [multi_user_example]. *)
Lemma main_stops_in_users (j : nat) (user : UserContext) (e : exn) :
  (forall (j' : nat) (question' : string),
     nth_error example_questions j' = Some question' ->
     returned (run j' question' example_user) = true) ->
  nth_error example_users j = Some user ->
  run (4 + j)%nat "私に合ったレコメンドをください" user = inl e ->
  (forall (j' : nat) (user' : UserContext),
     (j' < j)%nat -> nth_error example_users j' = Some user' ->
     returned (run (4 + j')%nat "私に合ったレコメンドをください" user') = true) ->
  main_stopped_at run (4 + j) "私に合ったレコメンドをください" user e.
Proof.
  intros Fine Nth Run Before.
  destruct (@ask_all_returns example_user example_questions 0 Fine)
    as (Out1 & Runs1).
  destruct (@ask_users_raises example_users 4 j user e Nth Run Before)
    as (Out2 & Runs2 & before & Trace).
  assert (Planned :
    (map (fun q => (q, example_user)) example_questions
     ++ map (fun u => ("私に合ったレコメンドをください", u))
            (firstn (S j) example_users))%list
    = firstn (S (4 + j)) expected_runs).
  { unfold expected_runs. rewrite firstn_app, <- firstn_map.
    rewrite firstn_all2 with (n := S (4 + j))
      by (rewrite length_map; cbv [example_questions List.length]; lia).
    replace (S (4 + j) - _)%nat with (S j)
      by (rewrite length_map; cbv [example_questions List.length]; lia).
    reflexivity. }
  unfold main_stopped_at, main, run_example, multi_user_example.
  destruct (ask_all run example_user 0 example_questions) as [evs1 outcome1];
    cbn [fst snd] in *.
  subst outcome1.
  change (0 + List.length example_questions)%nat with 4%nat.
  destruct (ask_users run 4 example_users) as [evs2 outcome2];
    cbn [fst snd] in *.
  subst evs2 outcome2. rewrite <- Planned, <- Runs1, <- Runs2.
  split; [|split]; intros; try intros Caught.
  - destruct (caught_by_Exception e); cbn [fst];
      rewrite ?runs_of_context_app; simpl; rewrite ?runs_of_context_app;
      simpl; now rewrite ?app_nil_r.
  - rewrite H. cbn [fst snd]. split; [reflexivity|].
    match goal with
    | |- exists _, ((?done ++ ?banner ++ ?b ++ _) ++ _)%list = _ =>
        exists (done ++ banner ++ b)%list
    end.
    rewrite <- !app_assoc. reflexivity.
  - rewrite H. cbn [fst snd]. split; [reflexivity|].
    match goal with
    | |- exists _, (?done ++ ?banner ++ ?b ++ _)%list = _ =>
        exists (done ++ banner ++ b)%list
    end.
    rewrite <- !app_assoc. reflexivity.
Qed.

(** X15. [main] of the context script stops at the first run that raises.
    Its planned runs are six: the four questions for the example user,
    then the request for each of the two other users, each run given its
    question and user only.  When none of them raises, [main] makes the
    six and returns.  When run [j] is the first to raise, the runs before
    it having returned, [main] makes the planned runs up to and including
    it and none after it; an exception of class [Exception] is printed
    right after that run and [main] returns; an exception outside
    [Exception] comes out of [main], and nothing else does. *)
Theorem main_0201_stops_at_first_failure :
  ((forall (j : nat) (question : string) (user : UserContext),
      nth_error expected_runs j = Some (question, user) ->
      returned (run j question user) = true) ->
   snd (main run) = inr tt /\ runs_of (fst (main run)) = expected_runs) /\
  (forall (j : nat) (question : string) (user : UserContext) (e : exn),
     nth_error expected_runs j = Some (question, user) ->
     run j question user = inl e ->
     (forall (j' : nat) (question' : string) (user' : UserContext),
        (j' < j)%nat ->
        nth_error expected_runs j' = Some (question', user') ->
        returned (run j' question' user') = true) ->
     runs_of (fst (main run)) = firstn (S j) expected_runs /\
     (caught_by_Exception e = true ->
      snd (main run) = inr tt /\
      exists before : list event,
        fst (main run)
        = (before ++
           [EvRun question user;
            EvPrint ("エラーが発生しました: " ++ exc_str e)])%list) /\
     (caught_by_Exception e = false ->
      snd (main run) = inl e /\
      exists before : list event,
        fst (main run) = (before ++ [EvRun question user])%list)) /\
  (forall e : exn, snd (main run) = inl e -> caught_by_Exception e = false).
Proof.
  split; [|split].
  - intros Fine.
    destruct (@ask_all_returns example_user example_questions 0)
      as (Out1 & Runs1).
    { intros j q Nth. apply Fine. now apply expected_runs_of_example. }
    destruct (@ask_users_returns example_users 4) as (Out2 & Runs2).
    { intros j u Nth. apply Fine. now apply expected_runs_of_users. }
    unfold main, run_example, multi_user_example.
    destruct (ask_all run example_user 0 example_questions)
      as [evs1 outcome1]; cbn [fst snd] in *.
    subst outcome1.
    change (0 + List.length example_questions)%nat with 4%nat.
    destruct (ask_users run 4 example_users) as [evs2 outcome2];
      cbn [fst snd] in *.
    subst outcome2. split; [reflexivity|]. cbn [fst].
    rewrite ?runs_of_context_app. simpl. rewrite ?runs_of_context_app.
    simpl. now rewrite Runs1, Runs2.
  - intros j question user e Nth Run Before.
    destruct (expected_runs_split _ Nth)
      as [[Example ->]|(j2 & -> & Users & ->)].
    + apply main_stops_in_example; [exact Example | exact Run|].
      intros j' q' Lt Nth'. apply (Before j' q' example_user Lt).
      now apply expected_runs_of_example.
    + apply main_stops_in_users; [|exact Users | exact Run|].
      * intros j' q' Nth'. apply (Before j' q' example_user).
        -- pose proof (nth_error_in_range _ _ Nth') as Short.
           simpl in Short. lia.
        -- now apply expected_runs_of_example.
      * intros j' u' Lt Nth'.
        apply (Before (4 + j')%nat _ u'); [lia|].
        now apply expected_runs_of_users.
  - intros e. unfold main.
    destruct (run_example run 0) as [evs1 [e1|i]].
    + destruct (caught_by_Exception e1) eqn:Caught; cbn [snd];
        [discriminate | now intros [= <-]].
    + destruct (multi_user_example run i) as [evs2 [e2|next]].
      * destruct (caught_by_Exception e2) eqn:Caught; cbn [snd];
          [discriminate | now intros [= <-]].
      * discriminate.
Qed.

End ContextMain.

Section MoreWitnesses.
Import Py Sdk Samples.

(** The draw 415 on the empty context. *)
Lemma handoff_flight_number_witness :
  CustomerService.flight_number
    (CustomerService.on_seat_booking_handoff 415 CustomerService.empty_context)
    = Some "FLT-415" /\
  String.length (three_digit_flight 415) = 7%nat /\
  forall (other : Z) (context' : CustomerService.AirlineAgentContext),
    CustomerService.flight_number
      (CustomerService.on_seat_booking_handoff other context')
    = CustomerService.flight_number
        (CustomerService.on_seat_booking_handoff 415
           CustomerService.empty_context) ->
    other = 415%Z.
Proof.
  apply (@handoff_flight_number_format CustomerService.empty_context 415).
  lia.
Defined.

(** One line answered, then two more of which the first trips. *)
Lemma main_loop_resumes_witness :
  CustomerService.main_loop (answer_then_raise input_tripwire) 0
    CustomerService.initial_state
    (["こんにちは"] ++ ["数学の宿題を手伝って"; "席を変更したい"])%list
  = ((fst (fst (CustomerService.main_loop (answer_then_raise input_tripwire)
                  0 CustomerService.initial_state ["こんにちは"]))
      ++ fst (fst (CustomerService.main_loop
                     (answer_then_raise input_tripwire) 1
                     (snd (fst (CustomerService.main_loop
                                  (answer_then_raise input_tripwire) 0
                                  CustomerService.initial_state
                                  ["こんにちは"])))
                     ["数学の宿題を手伝って"; "席を変更したい"])))%list,
     snd (fst (CustomerService.main_loop
                 (answer_then_raise input_tripwire) 1
                 (snd (fst (CustomerService.main_loop
                              (answer_then_raise input_tripwire) 0
                              CustomerService.initial_state ["こんにちは"])))
                 ["数学の宿題を手伝って"; "席を変更したい"])),
     Some input_tripwire).
Proof.
  exact (@main_loop_resumes (answer_then_raise input_tripwire)
           ["こんにちは"] ["数学の宿題を手伝って"; "席を変更したい"]
           0 CustomerService.initial_state _ _ None eq_refl).
Defined.

(** A flagged input at confidence 1.0, given to both input guardrails. *)
Lemma input_guardrails_witness :
  (verdict (Guardrail0206.inappropriate_content_guardrail
              (fun s : string => s) format_2f
              (fun _ _ => inr (Guardrail0206.mkInappropriate true "宿題" 1))
              tanaka (inl "2x + 3 = 11")) = Some true ->
   verdict (Guardrail0401.math_homework_input_guardrail
              (TResponseInputItem := string) format_2f
              (fun _ _ => inr (Guardrail0401.mkMath true "宿題" 1))
              tt (inl "2x + 3 = 11")) = Some true) /\
  verdict (Guardrail0401.math_homework_input_guardrail
             (TResponseInputItem := string) format_2f
             (fun _ _ => inr (Guardrail0401.mkMath true "宿題" 1))
             tt (inl "2x + 3 = 11")) = Some true.
Proof.
  destruct (@input_guardrails_differ_only_at_threshold
              string (fun s => s) format_2f unit true "宿題" 1%float
              (fun _ _ => inr (Guardrail0206.mkInappropriate true "宿題" 1))
              tanaka (inl "2x + 3 = 11")
              (fun _ _ => inr (Guardrail0401.mkMath true "宿題" 1))
              tt (inl "2x + 3 = 11") eq_refl eq_refl) as (Implied & _ & _).
  split; [exact Implied | apply Implied; reflexivity].
Defined.

(** Two standard users in Osaka asking for food. *)
Lemma recommendation_witness :
  Context.get_personalized_recommendation osaka_reader "food"
    = Context.get_personalized_recommendation osaka_walker "food" /\
  Context.get_personalized_recommendation osaka_reader "travel"
    = "該当するレコメンドが見つかりません".
Proof.
  destruct (@recommendation_reads_only_flag_location_name
              osaka_reader osaka_walker "food" eq_refl eq_refl)
    as [Same _]; [discriminate|].
  destruct (@recommendation_reads_only_flag_location_name
              osaka_reader osaka_walker "travel" eq_refl eq_refl)
    as [_ Fallback]; [discriminate|].
  split; [exact Same | apply Fallback; discriminate].
Defined.

(** The example user's three purchases. *)
Lemma check_purchase_history_witness :
  Substring "ワイヤレスイヤホン"
    (Context.check_purchase_history Context.example_user) /\
  Context.check_purchase_history Context.example_user
    = "田中太郎様の最近の購入: ノートPC, ワイヤレスイヤホン, スマートウォッチ".
Proof.
  destruct (@check_purchase_history_lists_short_history
              Context.example_user "ワイヤレスイヤホン")
    as (Listed & Text & _).
  - simpl. lia.
  - simpl. auto.
  - split; [exact Listed | exact Text].
Defined.

(** The five scenarios with the key set, the refund run failing. *)
Lemma main_counts_witness :
  exists before : list Handoff.main_event,
    Handoff.main (Some "sk-test") refund_fails
      = ((before ++
          [Handoff.Ev (Handoff.EvPrint (Handoff.nl ++ Handoff.times "=" 60));
           Handoff.Ev (Handoff.EvPrint "実行結果サマリー");
           Handoff.Ev (Handoff.EvPrint (Handoff.times "=" 60));
           Handoff.Ev (Handoff.EvPrint "成功: 4/5 シナリオ");
           Handoff.Ev
             (Handoff.EvPrint
                "⚠️ 1 個のシナリオでエラーが発生しました")])%list,
         inr tt) /\
    filter Handoff.is_run_or_sleep before
      = flat_map (fun scenario =>
                    [Handoff.Ev
                       (Handoff.EvRun Handoff.triage_agent
                          (Handoff.scenario_query scenario)
                          (Handoff.scenario_context scenario) 10);
                     Handoff.EvSleep 1]) Handoff.scenarios.
Proof.
  destruct (proj2 (@main_counts_the_scenarios_that_returned
                     refund_fails Handoff.scenarios (Some "sk-test"))
              eq_refl)
    as (before & closing & Main & Trace & _ & _ & Less).
  - intros scenario e _. unfold refund_fails.
    destruct (str_in "返金" (Handoff.scenario_query scenario));
      [now intros [= <-] | discriminate].
  - exists before. split; [|exact Trace].
    rewrite (Less ltac:(vm_compute; lia)) in Main. exact Main.
Defined.

(** 0401's demo with the key set: a tripwire and an error, exit code 0. *)
Lemma main_0401_witness :
  snd (Guardrail0401.main (Some "sk-test") demo_run_0401) = inr 0%Z /\
  Guardrail0401.run_inputs
    (fst (Guardrail0401.main (Some "sk-test") demo_run_0401))
  = map Guardrail0401.case_input Guardrail0401.test_cases.
Proof.
  apply (proj2 (@main_0401_exit_code demo_run_0401 (Some "sk-test"))).
  - reflexivity.
  - intros i text e. unfold demo_run_0401.
    destruct i as [|[|[|[|i]]]]; try discriminate; now intros [= <-].
Defined.

(** 0206's demo with a key of the wrong form: a warning, and a tripwire
    on the second test case. *)
Lemma main_0206_witness :
  snd (Guardrail0206.main format_2f (Some "test-key") demo_run) = inr tt /\
  Guardrail0206.run_inputs
    (fst (Guardrail0206.main format_2f (Some "test-key") demo_run))
  = map Guardrail0206.case_input Guardrail0206.test_cases.
Proof.
  apply (proj1 (proj2 (@main_0206_exit_status
                         format_2f demo_run (Some "test-key")))).
  - reflexivity.
  - intros i text user e. unfold demo_run.
    destruct i as [|[|[|i]]]; try discriminate; now intros [= <-].
Defined.

(** 0201's examples with the backend out of reach on the second call:
    two runs are made, the error is printed and [main] returns. *)
Lemma main_0201_witness :
  Context.runs_of (fst (Context.main second_call_fails))
    = [("私のステータスを教えてください", Context.example_user);
       ("食事のレコメンドをお願いします", Context.example_user)]%list /\
  snd (Context.main second_call_fails) = inr tt /\
  exists before : list Context.event,
    fst (Context.main second_call_fails)
    = (before ++
       [Context.EvRun "食事のレコメンドをお願いします" Context.example_user;
        Context.EvPrint "エラーが発生しました: Connection error."])%list.
Proof.
  destruct (proj1 (proj2 (@main_0201_stops_at_first_failure
                            second_call_fails))
              1%nat "食事のレコメンドをお願いします" Context.example_user
              checker_down eq_refl eq_refl)
    as (Runs & Caught & _).
  - intros j' question' user' Lt Nth.
    destruct j' as [|j']; [reflexivity | lia].
  - split; [exact Runs|]. exact (Caught eq_refl).
Defined.

End MoreWitnesses.
